(** * demo-platform: the tool-selection and invocation pipeline

    A shallow embedding of [src/app.py] (the chat-side orchestrator),
    [src/server.py] (the search tool served over MCP) and
    [src/tools/tavily_search_tool.py] (the search provider client), with the
    properties the specification states about them.

    Conventions.
    - Python values are the inductive [PyVal]; a dict is an insertion-ordered
      association list with string keys, looked up by first match.
    - A Python computation that may raise has type [Res A = Exc + A]
      ([inl e] is "raised e"); only subclasses of [Exception] are modelled.
    - The outside world (tool host, completion service, HTTP, environment) and
      the parts of the Python runtime that are not in the repository
      ([json.loads], [str] of a non-string, [int] of a non-integer, the text of
      a float) are parameters, packed in records.
    - Every call to the outside world is logged, with its outcome, in a trace;
      "is never invoked" is a statement about that trace.
    - Characters are code points below 256. [print] and logging only matter
      where evaluating their argument can raise. *)

From Stdlib Require Import ZArith List String Ascii Bool Lia Floats DecimalString.
Import ListNotations.
Open Scope string_scope.
Set Warnings "-register-all".

(* ===================================================================== *)
(** ** Python values, exceptions and the runtime *)
(* ===================================================================== *)

Module Py.

(** The exception classes the three source files tell apart.
    [JSONDecodeError] is a subclass of [ValueError]; [OtherException] stands
    for any other subclass of [Exception] outside these hierarchies. *)
Inductive ExcClass : Type :=
| Exception
| ValueError
| JSONDecodeError
| TypeError
| AttributeError
| TavilySearchError
| OtherException (qualname : string).

(** An exception instance; [exc_msg] is what [str(e)] and [f"{e}"] give. *)
Record Exc : Type := mkExc { exc_class : ExcClass; exc_msg : string }.

Definition Res (A : Type) : Type := (Exc + A)%type.

(** [issubclass_exc c base]: does [except base] catch an exception of class [c]? *)
Definition issubclass_exc (c base : ExcClass) : bool :=
  match base, c with
  | Exception, _ => true
  | ValueError, (ValueError | JSONDecodeError) => true
  | JSONDecodeError, JSONDecodeError => true
  | TypeError, TypeError => true
  | AttributeError, AttributeError => true
  | TavilySearchError, TavilySearchError => true
  | OtherException b, OtherException n => String.eqb b n
  | _, _ => false
  end.

(** [try: r except C1 as e: h1 e except C2 as e: h2 e ...]: the first clause
    whose class matches handles the exception; with no match it propagates. *)
Fixpoint try_except {A : Type} (r : Res A)
         (handlers : list (ExcClass * (Exc -> Res A))) : Res A :=
  match r with
  | inr a => inr a
  | inl e =>
      match handlers with
      | [] => inl e
      | (base, h) :: rest =>
          if issubclass_exc (exc_class e) base then h e
          else try_except (inl e) rest
      end
  end.

Definition res_bind {A B : Type} (r : Res A) (k : A -> Res B) : Res B :=
  match r with inl e => inl e | inr a => k a end.

(** Python objects as far as the sources look at them. *)
Inductive PyVal : Type :=
| PyNone
| PyBool (b : bool)
| PyInt (n : Z)
| PyFloat (x : float)
| PyStr (s : string)
| PyBytes (raw : string)
| PyList (items : list PyVal)
| PyDict (entries : list (string * PyVal))
  (** a class derived from pydantic's [BaseModel], with what calling its
      [model_json_schema()] does *)
| PyModelClass (name : string) (schema : Exc + PyVal)
  (** an instance of any other class, opaque *)
| PyObject (module_ name : string).

(** What [json.loads] can return. *)
Inductive Json : Type :=
| JNull
| JBool (b : bool)
| JInt (n : Z)
| JFloat (x : float)
| JStr (s : string)
| JArr (items : list Json)
| JObj (entries : list (string * Json)).

Fixpoint py_of_json (j : Json) : PyVal :=
  match j with
  | JNull => PyNone
  | JBool b => PyBool b
  | JInt n => PyInt n
  | JFloat x => PyFloat x
  | JStr s => PyStr s
  | JArr items => PyList (map py_of_json items)
  | JObj entries => PyDict (map (fun kv => (fst kv, py_of_json (snd kv))) entries)
  end.

(** Values built only from [None], booleans, numbers, strings, lists and
    dicts: the ones [json.dumps] accepts. *)
Fixpoint is_json (v : PyVal) : bool :=
  match v with
  | PyNone | PyBool _ | PyInt _ | PyFloat _ | PyStr _ => true
  | PyList items => forallb is_json items
  | PyDict entries => forallb (fun kv => is_json (snd kv)) entries
  | PyBytes _ | PyModelClass _ _ | PyObject _ _ => false
  end.

(** [type(v).__name__] *)
Definition type_name (v : PyVal) : string :=
  match v with
  | PyNone => "NoneType"
  | PyBool _ => "bool"
  | PyInt _ => "int"
  | PyFloat _ => "float"
  | PyStr _ => "str"
  | PyBytes _ => "bytes"
  | PyList _ => "list"
  | PyDict _ => "dict"
  | PyModelClass _ _ => "ModelMetaclass"
  | PyObject _ name => name
  end.

(** [type(v).__module__], empty for builtins *)
Definition type_module (v : PyVal) : string :=
  match v with
  | PyModelClass _ _ => "pydantic._internal._model_construction."
  | PyObject module_ _ => module_ ++ "."
  | _ => EmptyString
  end.

(** [str(type(v))], as an f-string renders [{type(v)}] *)
Definition type_repr (v : PyVal) : string :=
  "<class '" ++ type_module v ++ type_name v ++ "'>".

(** [bool(v)]; classes and plain instances are true. *)
Definition truthy (v : PyVal) : bool :=
  match v with
  | PyNone => false
  | PyBool b => b
  | PyInt n => negb (n =? 0)%Z
  | PyFloat x => negb (PrimFloat.eqb x 0%float)
  | PyStr s => negb (String.eqb s EmptyString)
  | PyBytes raw => negb (String.eqb raw EmptyString)
  | PyList items => match items with [] => false | _ => true end
  | PyDict entries => match entries with [] => false | _ => true end
  | PyModelClass _ _ | PyObject _ _ => true
  end.

(** [isinstance(v, dict)] and [isinstance(v, str)] *)
Definition is_dict (v : PyVal) : bool :=
  match v with PyDict _ => true | _ => false end.

Definition is_str (v : PyVal) : bool :=
  match v with PyStr _ => true | _ => false end.

Fixpoint dict_get (key : string) (entries : list (string * PyVal)) : option PyVal :=
  match entries with
  | [] => None
  | (k, v) :: rest => if String.eqb k key then Some v else dict_get key rest
  end.

(** [v.get(key, default)]: only a dict has a [get]. *)
Definition py_get (v : PyVal) (key : string) (default : PyVal) : Res PyVal :=
  match v with
  | PyDict entries =>
      inr (match dict_get key entries with Some x => x | None => default end)
  | _ => inl (mkExc AttributeError
                ("'" ++ type_name v ++ "' object has no attribute 'get'"))
  end.

(** [v[key]] for a string key *)
Definition py_getitem (v : PyVal) (key : string) : Res PyVal :=
  match v with
  | PyDict entries =>
      match dict_get key entries with
      | Some x => inr x
      | None => inl (mkExc (OtherException "KeyError") ("'" ++ key ++ "'"))
      end
  | _ => inl (mkExc TypeError
                ("'" ++ type_name v ++ "' object is not subscriptable"))
  end.

(** [for x in v]: the items a [for] loop visits. *)
Definition py_iter (v : PyVal) : Res (list PyVal) :=
  match v with
  | PyList items => inr items
  | PyDict entries => inr (map (fun kv => PyStr (fst kv)) entries)
  | PyStr s =>
      inr (map (fun c => PyStr (String c EmptyString)) (list_ascii_of_string s))
  | PyBytes raw =>
      inr (map (fun c => PyInt (Z.of_nat (nat_of_ascii c))) (list_ascii_of_string raw))
  | _ => inl (mkExc TypeError
                ("'" ++ type_name v ++ "' object is not iterable"))
  end.

(** [v in ["a", "b", ...]] for a list of string literals *)
Definition py_in_strs (v : PyVal) (choices : list string) : bool :=
  match v with
  | PyStr s => existsb (String.eqb s) choices
  | _ => false
  end.

(** *** Strings *)

Definition dq : string := String (ascii_of_nat 34) EmptyString.
Definition nl : string := String (ascii_of_nat 10) EmptyString.

Definition string_of_Z (z : Z) : string := NilZero.string_of_int (Z.to_int z).

(** [c.isspace()] for a code point below 256 *)
Definition is_space (c : ascii) : bool :=
  let n := nat_of_ascii c in
  (((9 <=? n) && (n <=? 13)) || ((28 <=? n) && (n <=? 32))
   || (n =? 133) || (n =? 160))%nat.

Fixpoint lstrip_chars (cs : list ascii) : list ascii :=
  match cs with
  | [] => []
  | c :: rest => if is_space c then lstrip_chars rest else cs
  end.

(** [s.strip()] *)
Definition strip (s : string) : string :=
  string_of_list_ascii
    (rev (lstrip_chars (rev (lstrip_chars (list_ascii_of_string s))))).

(** [needle in haystack] for strings *)
Fixpoint occurs (needle haystack : string) : bool :=
  if String.prefix needle haystack then true
  else match haystack with
       | EmptyString => false
       | String _ rest => occurs needle rest
       end.

(** *** json.dumps *)

Definition hex_digit (n : nat) : ascii :=
  ascii_of_nat (if (n <? 10)%nat then 48 + n else 87 + n).

(** One character inside a JSON string, [ensure_ascii=True]. *)
Definition escape_char (c : ascii) : string :=
  let n := nat_of_ascii c in
  if (n =? 34)%nat then "\" ++ dq
  else if (n =? 92)%nat then "\\"
  else if (n =? 10)%nat then "\n"
  else if (n =? 13)%nat then "\r"
  else if (n =? 9)%nat then "\t"
  else if (n =? 8)%nat then "\b"
  else if (n =? 12)%nat then "\f"
  else if ((n <? 32) || (126 <? n))%nat then
    "\u00" ++ String (hex_digit (n / 16)) (String (hex_digit (n mod 16)) EmptyString)
  else String c EmptyString.

Definition json_string (s : string) : string :=
  dq ++ String.concat EmptyString (map escape_char (list_ascii_of_string s)) ++ dq.

Fixpoint spaces (n : nat) : string :=
  match n with O => EmptyString | S m => String " " (spaces m) end.

(** The separator layout of [json.dumps]: with [indent=None] items are joined
    by [", "]; with [indent=k] each item sits on a line of its own, indented
    by [k] spaces per nesting level, and items are joined by [","]. *)
Definition newline_indent (indent : option nat) (level : nat) : string :=
  match indent with
  | None => EmptyString
  | Some k => nl ++ spaces (k * level)
  end.

Definition item_separator (indent : option nat) (level : nat) : string :=
  match indent with
  | None => ", "
  | Some _ => "," ++ newline_indent indent level
  end.

Definition bracket (indent : option nat) (level : nat)
           (opening closing : string) (parts : list string) : string :=
  match parts with
  | [] => opening ++ closing
  | _ => opening ++ newline_indent indent (S level)
         ++ String.concat (item_separator indent (S level)) parts
         ++ newline_indent indent level ++ closing
  end.

Section Dumps.
(** the text [json.dumps] writes for a float ([float.__repr__], or [NaN],
    [Infinity], [-Infinity]) *)
Variable json_float : float -> string.
Variable indent : option nat.

Fixpoint encode (level : nat) (v : PyVal) : Res string :=
  match v with
  | PyNone => inr "null"
  | PyBool true => inr "true"
  | PyBool false => inr "false"
  | PyInt n => inr (string_of_Z n)
  | PyFloat x => inr (json_float x)
  | PyStr s => inr (json_string s)
  | PyList items =>
      let parts :=
        (fix go (l : list PyVal) : Res (list string) :=
           match l with
           | [] => inr []
           | x :: rest =>
               res_bind (encode (S level) x) (fun s =>
               res_bind (go rest) (fun ss => inr (s :: ss)))
           end) items in
      res_bind parts (fun ps => inr (bracket indent level "[" "]" ps))
  | PyDict entries =>
      let parts :=
        (fix go (l : list (string * PyVal)) : Res (list string) :=
           match l with
           | [] => inr []
           | (k, x) :: rest =>
               res_bind (encode (S level) x) (fun s =>
               res_bind (go rest) (fun ss =>
               inr ((json_string k ++ ": " ++ s) :: ss)))
           end) entries in
      res_bind parts (fun ps => inr (bracket indent level "{" "}" ps))
  | PyBytes _ | PyModelClass _ _ | PyObject _ _ =>
      inl (mkExc TypeError
             ("Object of type " ++ type_name v ++ " is not JSON serializable"))
  end.
End Dumps.

(** The parts of the runtime that are taken as given. *)
Record Runtime : Type := {
  (** [json.loads(s)] before conversion to Python values *)
  json_parse : string -> Exc + Json;
  (** the text of a float in [json.dumps] *)
  json_float : float -> string;
  (** [str(v)] for a [v] that is not a [str] *)
  str_other : PyVal -> string;
  (** [int(v)] for a [v] that is neither an [int] nor a [bool] *)
  int_other : PyVal -> Exc + Z
}.

Section WithRuntime.
Variable rt : Runtime.

Definition json_loads (s : string) : Res PyVal :=
  res_bind (json_parse rt s) (fun j => inr (py_of_json j)).

(** [json.dumps(v)] and [json.dumps(v, indent=2)] *)
Definition json_dumps (v : PyVal) : Res string :=
  encode (json_float rt) None 0 v.

Definition json_dumps_indent2 (v : PyVal) : Res string :=
  encode (json_float rt) (Some 2%nat) 0 v.

(** [f"{v}"] *)
Definition fmt (v : PyVal) : string :=
  match v with
  | PyStr s => s
  | _ => str_other rt v
  end.

(** [int(v)] *)
Definition py_int (v : PyVal) : Res Z :=
  match v with
  | PyInt n => inr n
  | PyBool b => inr (if b then 1 else 0)%Z
  | _ => int_other rt v
  end.
End WithRuntime.

End Py.

(* ===================================================================== *)
(** ** Computations that log their calls to the outside world *)
(* ===================================================================== *)

Module Tr.

Definition Traced (E A : Type) : Type := (A * list E)%type.

Definition ret {E A : Type} (a : A) : Traced E A := (a, []).

Definition bind {E A B : Type} (m : Traced E A) (k : A -> Traced E B) : Traced E B :=
  (fst (k (fst m)), (snd m ++ snd (k (fst m)))%list).

Definition emit {E : Type} (e : E) : Traced E unit := (tt, [e]).

Definition value {E A : Type} (m : Traced E A) : A := fst m.
Definition trace {E A : Type} (m : Traced E A) : list E := snd m.

Notation "x <- m ;; k" := (bind m (fun x => k))
  (at level 61, m at next level, right associativity).

End Tr.

(* ===================================================================== *)
(** ** src/app.py *)
(* ===================================================================== *)

Module App.
Import Py Tr.

(** A tool as [mcp_client.list_tools()] returns it. [inputSchema] and
    [parameters] are [None] when the object has no such attribute
    ([hasattr] is false); an attribute that is present and holds Python's
    [None] is [Some PyNone]. *)
Record RawTool : Type := {
  name : string;
  description : PyVal;
  inputSchema : option PyVal;
  parameters : option PyVal
}.

(** A content item of a tool result, as far as [process_user_query] looks at
    it: the [text] and [data] attributes when present, [__dict__] when the
    object has one, and [str(item)]. *)
Record ContentItem : Type := {
  text : option string;
  data : option PyVal;
  obj_dict : option (list (string * PyVal));
  obj_str : string
}.

(** The tool host and the completion service. Within one turn every call has
    different arguments, so a function of the arguments describes any
    behaviour of the two services. *)
Record World : Type := {
  (** [await mcp_client.list_tools()] *)
  list_tools : Res (list RawTool);
  (** [openai_client.chat.completions.create(...).choices[0].message.content]
      for the given system and user prompt, model [gpt-4.1-mini],
      temperature 0.2: the whole [try] block of app.py 27-36, so an
      exception of the call or of the access to the first choice is [inl].
      The content of a message is an optional string: [None] is Python's
      [None]. *)
  chat_completions_create : string -> string -> Res (option string);
  (** [await mcp_client.call_tool(tool_name, tool_arguments)] *)
  call_tool : PyVal -> PyVal -> Res (list ContentItem)
}.

Inductive Event : Type :=
| ListTools (outcome : Res (list RawTool))
| ChatCompletion (system_prompt user_prompt : string) (outcome : Res (option string))
| CallTool (tool_name tool_arguments : PyVal) (outcome : Res (list ContentItem)).

Definition is_call_tool (ev : Event) : bool :=
  match ev with CallTool _ _ _ => true | _ => false end.

Definition is_chat_completion (ev : Event) : bool :=
  match ev with ChatCompletion _ _ _ => true | _ => false end.

(** The constant prompts of [process_user_query]. *)
Definition system_prompt_tool_selection : string :=
  String.concat nl [
    EmptyString;
    "You are an AI assistant that helps select the correct tool and its arguments to answer a user's query.";
    "You will be provided with a list of available tools in JSON format, including their names, descriptions, and JSON schemas for their parameters.";
    "Based on the user's query, you must decide which tool to use and what arguments to pass to it.";
    EmptyString;
    "Respond ONLY with a JSON object of the following format:";
    "{";
    "  " ++ dq ++ "tool_name" ++ dq ++ ": " ++ dq ++ "name_of_the_tool_to_use" ++ dq ++ ",";
    "  " ++ dq ++ "arguments" ++ dq ++ ": { " ++ dq ++ "param1" ++ dq ++ ": " ++ dq ++ "value1" ++ dq ++ ", " ++ dq ++ "param2" ++ dq ++ ": " ++ dq ++ "value2" ++ dq ++ " ... }";
    "}";
    "If no tool is suitable for the user's query, respond with:";
    "{";
    "  " ++ dq ++ "tool_name" ++ dq ++ ": null,";
    "  " ++ dq ++ "arguments" ++ dq ++ ": {}";
    "}";
    "Ensure that argument values match the types specified in the tool's parameter schema.";
    "For example, if a parameter is type 'integer', provide an integer, not a string.";
    "If a parameter is an 'object' with properties, provide a nested JSON object for that argument.";
    "If a parameter is an 'array', provide a JSON array.";
    "Do not add any explanations before or after the JSON object.";
    "    " ].

Definition user_prompt_tool_selection (user_query tools_json_for_llm : string) : string :=
  String.concat nl [
    EmptyString;
    "User query: " ++ dq ++ user_query ++ dq;
    EmptyString;
    "Available tools:";
    tools_json_for_llm;
    EmptyString;
    "Based on the user query and available tools, which tool should be used and with what arguments?";
    "Remember to respond only with the JSON object.";
    "    " ].

Definition general_answer_prompt (user_query : string) : string :=
  "The user asked: '" ++ user_query
  ++ "'. No specific tool was chosen. Please provide a helpful general response.".

Definition system_prompt_summarize : string :=
  "You are an AI assistant. A tool was executed to help answer a user's query. Explain the tool's output to the user in a friendly and concise way.".

(** What [ask_openai] returns when the client call ends in [completion]:
    the [try] block of app.py 26-39 with its handler. The content is returned
    as it is, also when it is [None]. *)
Definition completion_text (completion : Res (option string)) : Res (option string) :=
  try_except completion
    [(Exception,
      fun e => inr (Some ("Error: Could not contact OpenAI - " ++ exc_msg e)))].

(** [f"{x}"] for an optional string *)
Definition fmt_optional (x : option string) : string :=
  match x with
  | Some s => s
  | None => "None"
  end.

Section Pipeline.
Variable rt : Runtime.
Variable w : World.

Definition user_prompt_summarize
           (user_query : string) (tool_name : PyVal)
           (arguments_json tool_output_for_llm : string) : string :=
  String.concat nl [
    EmptyString;
    "The user originally asked: " ++ dq ++ user_query ++ dq;
    "The tool " ++ dq ++ fmt rt tool_name ++ dq
      ++ " was called with arguments " ++ arguments_json ++ ".";
    "The tool returned the following output:";
    "---";
    tool_output_for_llm;
    "---";
    "Please provide a natural language response to the user based on this.";
    "    " ].

(** [ask_openai] (app.py 24-39): the completion, or the error text when the
    client raises. *)
Definition ask_openai (system_prompt user_prompt : string)
  : Traced Event (Res (option string)) :=
  let completion := chat_completions_create w system_prompt user_prompt in
  _ <- emit (ChatCompletion system_prompt user_prompt completion) ;;
  ret (completion_text completion).

(** The body of the loop of [list_mcp_tools_with_schema] up to the
    [append] (app.py 61-83): the schema shown to the model for one tool.
    The debug [print] of line 68 serializes the schema and so can raise. *)
Definition parameter_schema_for_llm (tool_obj : RawTool) : Res PyVal :=
  match inputSchema tool_obj with
  | Some (PyDict entries) =>
      res_bind (json_dumps_indent2 rt (PyDict entries))
               (fun _ => inr (PyDict entries))
  | Some PyNone | None =>
      match parameters tool_obj with
      | Some (PyModelClass _ schema) => schema
      | Some (PyDict entries) => inr (PyDict entries)
      | Some _ => inr (PyDict [])
      | None => inr (PyDict [])
      end
  | Some _ => inr (PyDict [])
  end.

(** The [for] loop (app.py 56-90). *)
Fixpoint tools_data (raw_tools : list RawTool) : Res (list PyVal) :=
  match raw_tools with
  | [] => inr []
  | tool_obj :: rest =>
      res_bind (parameter_schema_for_llm tool_obj) (fun schema =>
      res_bind (tools_data rest) (fun others =>
      inr (PyDict [("name", PyStr (name tool_obj));
                   ("description", description tool_obj);
                   ("parameters_schema", schema)] :: others)))
  end.

(** [list_mcp_tools_with_schema] (app.py 42-98) *)
Definition list_mcp_tools_with_schema : Traced Event (Res (list PyVal)) :=
  let listed := list_tools w in
  _ <- emit (ListTools listed) ;;
  ret (try_except
         (res_bind listed (fun raw_tools =>
            match raw_tools with
            | [] => inr []
            | _ => tools_data raw_tools
            end))
         [(Exception, fun _ => inr [])]).

(** [json.loads(llm_tool_choice_str)] (app.py 150): of a string, or of
    [None], which [json.loads] refuses. *)
Definition json_loads_reply (llm_tool_choice_str : option string) : Res PyVal :=
  match llm_tool_choice_str with
  | Some s => json_loads rt s
  | None =>
      inl (mkExc TypeError
             "the JSON object must be str, bytes or bytearray, not NoneType")
  end.

(** What the [try] block of app.py 149-152 leaves in [tool_name] and
    [tool_arguments]. *)
Definition tool_choice (llm_tool_choice_str : option string) : Res (PyVal * PyVal) :=
  res_bind (json_loads_reply llm_tool_choice_str) (fun llm_tool_choice =>
  res_bind (py_get llm_tool_choice "tool_name" PyNone) (fun tool_name =>
  res_bind (py_get llm_tool_choice "arguments" (PyDict [])) (fun tool_arguments =>
  inr (tool_name, tool_arguments)))).

(** The two messages of app.py 154 and 156. *)
Definition invalid_json_error (llm_tool_choice_str : option string) : string :=
  "Error: LLM did not provide a valid JSON response for tool selection. LLM response:"
  ++ nl ++ fmt_optional llm_tool_choice_str.

Definition parsing_error (e : Exc) (llm_tool_choice_str : option string) : string :=
  "Error parsing LLM tool choice: " ++ exc_msg e
  ++ ". LLM response:" ++ nl ++ fmt_optional llm_tool_choice_str.

(** app.py 149-156 with its two handlers; [inl msg] is "the function
    returns [msg]", [inr] carries on with the selection. *)
Definition parse_tool_choice (llm_tool_choice_str : option string)
  : Res (string + PyVal * PyVal) :=
  try_except
    (res_bind (tool_choice llm_tool_choice_str) (fun sel => inr (inr sel)))
    [(JSONDecodeError, fun _ => inr (inl (invalid_json_error llm_tool_choice_str)));
     (Exception, fun e => inr (inl (parsing_error e llm_tool_choice_str)))].

(** app.py 159-164: no tool was chosen. *)
Definition no_tool_answer (general_response : option string) : string :=
  "(No specific tool was used by the LLM for your query)" ++ nl
  ++ "LLM: " ++ fmt_optional general_response.

Definition answer_without_tool (user_query : string)
  : Traced Event (Res (option string)) :=
  r <- ask_openai "You are a helpful AI assistant." (general_answer_prompt user_query) ;;
  ret (res_bind r (fun general_response =>
       inr (Some (no_tool_answer general_response)))).

(** The item put in the fallback list of app.py 183. *)
Definition object_view (res : ContentItem) : PyVal :=
  match obj_dict res with
  | Some d => PyDict d
  | None => PyStr (obj_str res)
  end.

(** The text of app.py 181. *)
Definition binary_placeholder (d : PyVal) : string :=
  "[Binary data received, type: " ++ type_repr d ++ "]".

(** app.py 178-185 *)
Definition tool_output_for_llm (tool_result_list : list ContentItem) : Res string :=
  match tool_result_list with
  | first :: _ =>
      match text first with
      | Some t => inr t
      | None =>
          match data first with
          | Some d => inr (binary_placeholder d)
          | None => json_dumps rt (PyList (map object_view tool_result_list))
          end
      end
  | [] => inr "Tool executed successfully but returned no content."
  end.

(** The two messages of app.py 171 and 189. *)
Definition arguments_error (tool_name tool_arguments : PyVal) : string :=
  "Error: LLM provided arguments in an incorrect format for tool '"
  ++ fmt rt tool_name ++ "'. Expected a dictionary, got "
  ++ type_repr tool_arguments ++ ".".

Definition tool_error (tool_name : PyVal) (e : Exc) : string :=
  "Error executing tool '" ++ fmt rt tool_name ++ "' on MCP server: " ++ exc_msg e.

(** app.py 167-189: [inl msg] is "the function returns [msg]", [inr out]
    carries on with the tool output. *)
Definition call_mcp_tool (tool_name tool_arguments : PyVal)
  : Traced Event (Res (string + string)) :=
  if negb (is_dict tool_arguments) then
    ret (inr (inl (arguments_error tool_name tool_arguments)))
  else
    let tool_result_list := call_tool w tool_name tool_arguments in
    _ <- emit (CallTool tool_name tool_arguments tool_result_list) ;;
    ret (try_except
           (res_bind tool_result_list (fun items =>
            res_bind (tool_output_for_llm items) (fun out => inr (inr out))))
           [(Exception, fun e => inr (inl (tool_error tool_name e)))]).

(** app.py 191-204: the function returns what [ask_openai] returned. *)
Definition summarize (user_query : string) (tool_name tool_arguments : PyVal)
           (tool_output : string) : Traced Event (Res (option string)) :=
  match json_dumps rt tool_arguments with
  | inl e => ret (inl e)
  | inr arguments_json =>
      ask_openai system_prompt_summarize
                 (user_prompt_summarize user_query tool_name arguments_json tool_output)
  end.

(** app.py 159-204: what follows a parsed selection. *)
Definition act_on_choice (user_query : string) (tool_name tool_arguments : PyVal)
  : Traced Event (Res (option string)) :=
  if negb (truthy tool_name) then answer_without_tool user_query
  else
    r <- call_mcp_tool tool_name tool_arguments ;;
    match r with
    | inl e => ret (inl e)
    | inr (inl msg) => ret (inr (Some msg))
    | inr (inr out) => summarize user_query tool_name tool_arguments out
    end.

(** app.py 149-204: what follows the oracle's reply to the selection
    prompt. *)
Definition act_on_reply (user_query : string)
           (llm_tool_choice_str : Res (option string))
  : Traced Event (Res (option string)) :=
  match res_bind llm_tool_choice_str parse_tool_choice with
  | inl e => ret (inl e)
  | inr (inl msg) => ret (inr (Some msg))
  | inr (inr (tool_name, tool_arguments)) =>
      act_on_choice user_query tool_name tool_arguments
  end.

(** app.py 113-204: what follows a non-empty catalog. *)
Definition select_and_act (user_query : string) (mcp_tools_list : list PyVal)
  : Traced Event (Res (option string)) :=
  match json_dumps_indent2 rt (PyList mcp_tools_list) with
  | inl e => ret (inl e)
  | inr tools_json_for_llm =>
      r <- ask_openai system_prompt_tool_selection
                      (user_prompt_tool_selection user_query tools_json_for_llm) ;;
      act_on_reply user_query r
  end.

(** [process_user_query] (app.py 101-204): a string, or [None] when the
    narration's completion has no content. *)
Definition process_user_query (user_query : string)
  : Traced Event (Res (option string)) :=
  r <- list_mcp_tools_with_schema ;;
  match r with
  | inl e => ret (inl e)
  | inr [] => ret (inr (Some "Error: Could not retrieve tools from the MCP server."))
  | inr mcp_tools_list => select_and_act user_query mcp_tools_list
  end.

End Pipeline.

End App.

(* ===================================================================== *)
(** ** src/tools/tavily_search_tool.py and src/server.py *)
(* ===================================================================== *)

Module Server.
Import Py Tr.

(** How the block [with httpx.Client(timeout=30.0) as client: ...] of
    [TavilyClient.search] ends: in one of its three [except] clauses, or by
    returning [response.json()]. *)
Inductive HttpOutcome : Type :=
| HTTPStatusError (status_code : Z) (response_text : string)
| RequestError (msg : string)
| OtherError (e : Exc)
| Returned (body : Json).

Record World : Type := {
  (** [os.getenv("TAVILY_API_KEY")] *)
  TAVILY_API_KEY : option string;
  (** the POST of a payload to a URL, followed by [raise_for_status()] and
      [json()] *)
  post : string -> PyVal -> HttpOutcome
}.

Inductive Event : Type :=
| Search (query : string) (max_results : Z) (search_depth : PyVal)
| Post (url : string) (payload : PyVal) (outcome : HttpOutcome).

Definition base_url : string := "https://api.tavily.com".

Section Tool.
Variable rt : Runtime.
Variable w : World.

(** [TavilyClient.search] (tavily_search_tool.py 22-70) *)
Definition search (api_key : string) (query : string) (max_results : Z)
           (search_depth : PyVal) : Traced Event (Res PyVal) :=
  _ <- emit (Search query max_results search_depth) ;;
  if String.eqb (strip query) EmptyString then
    ret (inl (mkExc TavilySearchError "Search query cannot be empty"))
  else
    let payload :=
      PyDict [("api_key", PyStr api_key);
              ("query", PyStr (strip query));
              ("max_results", PyInt max_results);
              ("search_depth", search_depth);
              ("include_answer", PyBool true);
              ("include_images", PyBool false);
              ("include_raw_content", PyBool false)] in
    let outcome := post w (base_url ++ "/search") payload in
    _ <- emit (Post (base_url ++ "/search") payload outcome) ;;
    ret (match outcome with
         | Returned body => inr (py_of_json body)
         | HTTPStatusError status_code response_text =>
             let error_msg :=
               "HTTP " ++ string_of_Z status_code ++ ": " ++ response_text in
             inl (mkExc TavilySearchError ("Search request failed: " ++ error_msg))
         | RequestError msg =>
             inl (mkExc TavilySearchError ("Network error: " ++ msg))
         | OtherError e =>
             inl (mkExc TavilySearchError ("Unexpected error: " ++ exc_msg e))
         end).

(** [get_tavily_client] (tavily_search_tool.py 72-77); the client is
    its API key. *)
Definition get_tavily_client : Res string :=
  match TAVILY_API_KEY w with
  | Some api_key =>
      if String.eqb api_key EmptyString
      then inl (mkExc ValueError "TAVILY_API_KEY environment variable is required")
      else inr api_key
  | None => inl (mkExc ValueError "TAVILY_API_KEY environment variable is required")
  end.

(** server.py 67-74: one entry per search result. *)
Fixpoint format_each (items : list PyVal) : Res (list PyVal) :=
  match items with
  | [] => inr []
  | result :: rest =>
      res_bind (py_get result "title" (PyStr EmptyString)) (fun title =>
      res_bind (py_get result "url" (PyStr EmptyString)) (fun url =>
      res_bind (py_get result "content" (PyStr EmptyString)) (fun content =>
      res_bind (py_get result "score" (PyFloat 0%float)) (fun score =>
      res_bind (format_each rest) (fun others =>
      inr (PyDict [("type", PyStr "result");
                   ("title", title);
                   ("url", url);
                   ("content", content);
                   ("score", score)] :: others))))))
  end.

(** server.py 55-76 *)
Definition format_results (query results : PyVal) : Res (list PyVal) :=
  res_bind (py_get results "answer" PyNone) (fun answer =>
  res_bind (if truthy answer
            then res_bind (py_getitem results "answer") (fun content =>
                 inr [PyDict [("type", PyStr "answer");
                              ("content", content);
                              ("query", query)]])
            else inr []) (fun formatted_results =>
  res_bind (py_get results "results" (PyList [])) (fun found =>
  res_bind (py_iter found) (fun items =>
  res_bind (format_each items) (fun entries =>
  inr (formatted_results ++ entries)%list))))).

Definition error_list (msg : string) : PyVal :=
  PyList [PyDict [("error", PyStr msg)]].

(** server.py 46 *)
Definition clamp_max_results (n : Z) : Z := Z.max 1 (Z.min n 20).

(** server.py 48-49 *)
Definition checked_search_depth (search_depth : PyVal) : PyVal :=
  if negb (py_in_strs search_depth ["basic"; "advanced"])
  then PyStr "basic" else search_depth.

(** The [try] block of [tavily_search] (server.py 42-76). *)
Definition tavily_search_body (query max_results search_depth : PyVal)
  : Traced Event (Res PyVal) :=
  match query with
  | PyStr q =>
      if String.eqb (strip q) EmptyString then
        ret (inr (error_list "Query parameter is required and must be a non-empty string"))
      else
        match py_int rt max_results with
        | inl e => ret (inl e)
        | inr n =>
            let max_results := clamp_max_results n in
            let search_depth := checked_search_depth search_depth in
            match get_tavily_client with
            | inl e => ret (inl e)
            | inr client =>
                r <- search client q max_results search_depth ;;
                ret (res_bind r (fun results =>
                     res_bind (format_results query results) (fun formatted_results =>
                     inr (PyList formatted_results))))
            end
        end
  | _ => ret (inr (error_list "Query parameter is required and must be a non-empty string"))
  end.

(** [tavily_search] (server.py 18-86) *)
Definition tavily_search (query max_results search_depth : PyVal)
  : Traced Event (Res PyVal) :=
  r <- tavily_search_body query max_results search_depth ;;
  ret (try_except r
         [(TavilySearchError,
           fun e => inr (error_list ("Search failed: " ++ exc_msg e)));
          (ValueError,
           fun e => inr (error_list ("Configuration error: " ++ exc_msg e)));
          (Exception,
           fun e => inr (error_list ("Unexpected error: " ++ exc_msg e)))]).

End Tool.

End Server.

(* ===================================================================== *)
(** ** The specification's reading of the schema fallback chain *)
(* ===================================================================== *)

Module Spec.
Import Py App.

(** The chain as section 4.1 words it: (1) the direct schema attribute if it
    is present and is an object; (2) else the "parameters" attribute, a
    schema-bearing class giving its schema and an object itself; (3) else the
    empty object. To be compared with [App.parameter_schema_for_llm]. *)
Definition spec_parameter_schema (tool_obj : RawTool) : Res PyVal :=
  match inputSchema tool_obj with
  | Some (PyDict entries) => inr (PyDict entries)
  | _ =>
      match parameters tool_obj with
      | Some (PyModelClass _ schema) => schema
      | Some (PyDict entries) => inr (PyDict entries)
      | _ => inr (PyDict [])
      end
  end.

End Spec.

(* ===================================================================== *)
(** ** Test doubles: the stubs of the end-to-end scenarios *)
(* ===================================================================== *)

Module Doubles.
Import Py Tr.

Definition quoted (s : string) : string := dq ++ s ++ dq.

(** The selection of scenario B:
    {"tool_name":"tavily_search","arguments":{"query":"recent AI news","max_results":5,"search_depth":"basic"}} *)
Definition selection_search_text : string :=
  "{" ++ quoted "tool_name" ++ ":" ++ quoted "tavily_search" ++ ","
  ++ quoted "arguments" ++ ":{" ++ quoted "query" ++ ":" ++ quoted "recent AI news"
  ++ "," ++ quoted "max_results" ++ ":5," ++ quoted "search_depth" ++ ":"
  ++ quoted "basic" ++ "}}".

Definition search_arguments : Json :=
  JObj [("query", JStr "recent AI news"); ("max_results", JInt 5);
        ("search_depth", JStr "basic")].

Definition selection_search : Json :=
  JObj [("tool_name", JStr "tavily_search"); ("arguments", search_arguments)].

(** A selection asking for more than the search tool allows:
    {"tool_name":"tavily_search","arguments":{"query":"cats","max_results":50,"search_depth":"deep"}} *)
Definition selection_greedy_text : string :=
  "{" ++ quoted "tool_name" ++ ":" ++ quoted "tavily_search" ++ ","
  ++ quoted "arguments" ++ ":{" ++ quoted "query" ++ ":" ++ quoted "cats"
  ++ "," ++ quoted "max_results" ++ ":50," ++ quoted "search_depth" ++ ":"
  ++ quoted "deep" ++ "}}".

Definition greedy_arguments : Json :=
  JObj [("query", JStr "cats"); ("max_results", JInt 50);
        ("search_depth", JStr "deep")].

Definition selection_greedy : Json :=
  JObj [("tool_name", JStr "tavily_search"); ("arguments", greedy_arguments)].

(** The selection of scenario C: {"tool_name":"x","arguments":"not-an-object"} *)
Definition selection_malformed_text : string :=
  "{" ++ quoted "tool_name" ++ ":" ++ quoted "x" ++ ","
  ++ quoted "arguments" ++ ":" ++ quoted "not-an-object" ++ "}".

Definition selection_malformed : Json :=
  JObj [("tool_name", JStr "x"); ("arguments", JStr "not-an-object")].

(** {"tool_name": null, "arguments": {}} *)
Definition selection_null_text : string :=
  "{" ++ quoted "tool_name" ++ ": null, " ++ quoted "arguments" ++ ": {}}".

Definition selection_null : Json :=
  JObj [("tool_name", JNull); ("arguments", JObj [])].

(** A [json.loads] that knows the four texts above and rejects the rest. *)
Definition known_documents : list (string * Json) :=
  [(selection_search_text, selection_search);
   (selection_greedy_text, selection_greedy);
   (selection_malformed_text, selection_malformed);
   (selection_null_text, selection_null)].

Definition json_parse_double (s : string) : Exc + Json :=
  match find (fun doc => String.eqb (fst doc) s) known_documents with
  | Some doc => inr (snd doc)
  | None => inl (mkExc JSONDecodeError "Expecting value: line 1 column 1 (char 0)")
  end.

Definition runtime : Runtime := {|
  json_parse := json_parse_double;
  json_float := fun _ => "0.0";
  str_other := fun v => "<" ++ type_name v ++ ">";
  int_other := fun v =>
    inl (mkExc TypeError
           ("int() argument must be a string, a bytes-like object or a real number, not '"
            ++ type_name v ++ "'"))
|}.

(** The search tool as the tool host lists it. *)
Definition search_tool : App.RawTool := {|
  App.name := "tavily_search";
  App.description := PyStr "This tool performs web searches";
  App.inputSchema :=
    Some (PyDict [("type", PyStr "object");
                  ("required", PyList [PyStr "query"])]);
  App.parameters := None
|}.

Definition text_item (s : string) : App.ContentItem := {|
  App.text := Some s;
  App.data := None;
  App.obj_dict := Some [("type", PyStr "text"); ("text", PyStr s)];
  App.obj_str := "type='text' text='" ++ s ++ "'"
|}.

Definition image_item (payload : string) : App.ContentItem := {|
  App.text := None;
  App.data := Some (PyBytes payload);
  App.obj_dict := Some [("type", PyStr "image"); ("data", PyBytes payload);
                        ("mimeType", PyStr "image/png")];
  App.obj_str := "type='image'"
|}.

Definition plain_item (s : string) : App.ContentItem := {|
  App.text := None;
  App.data := None;
  App.obj_dict := None;
  App.obj_str := s
|}.

(** An oracle that answers the selection prompt with [selection] and any
    other prompt with [narration]. *)
Definition oracle (selection narration : Res (option string))
           (system_prompt user_prompt : string) : Res (option string) :=
  if String.eqb system_prompt App.system_prompt_tool_selection
  then selection else narration.

Definition host_saying (listed : Res (list App.RawTool))
           (selection narration : Res (option string))
           (result : Res (list App.ContentItem)) : App.World := {|
  App.list_tools := listed;
  App.chat_completions_create := oracle selection narration;
  App.call_tool := fun _ _ => result
|}.

(** A completion whose content is the given text. *)
Definition said (r : Res string) : Res (option string) :=
  match r with
  | inl e => inl e
  | inr s => inr (Some s)
  end.

(** A host whose oracle always has text to say. *)
Definition host (listed : Res (list App.RawTool)) (selection narration : Res string)
           (result : Res (list App.ContentItem)) : App.World :=
  host_saying listed (said selection) (said narration) result.

Definition unreachable : Exc := mkExc (OtherException "openai.APIConnectionError") "Connection error.".
Definition boom : Exc := mkExc (OtherException "fastmcp.exceptions.ToolError") "boom".

(** Scenario A: empty catalog, oracle unreachable. *)
Definition scenario_A : App.World :=
  host (inr []) (inl unreachable) (inl unreachable) (inl boom).

(** Scenario B: the search tool is selected and returns one text item. *)
Definition scenario_B : App.World :=
  host (inr [search_tool]) (inr selection_search_text)
       (inr "Here is a summary of recent AI news.")
       (inr [text_item "AI news summary..."]).

(** Scenario C: the selection's arguments are a string. *)
Definition scenario_C : App.World :=
  host (inr [search_tool]) (inr selection_malformed_text)
       (inr "unused") (inr [text_item "unused"]).

(** Scenario D: the transport raises on [call_tool]. *)
Definition scenario_D : App.World :=
  host (inr [search_tool]) (inr selection_search_text) (inr "unused") (inl boom).

(** Scenario D again, with the other selection. *)
Definition scenario_D_greedy : App.World :=
  host (inr [search_tool]) (inr selection_greedy_text) (inr "unused") (inl boom).

(** The oracle chooses no tool. *)
Definition scenario_no_tool : App.World :=
  host (inr [search_tool]) (inr selection_null_text)
       (inr "Paris is the capital of France.") (inl boom).

(** The oracle's text is not JSON. *)
Definition scenario_prose : App.World :=
  host (inr [search_tool]) (inr "I would use the search tool.")
       (inr "unused") (inl boom).

(** The tool listing itself fails. *)
Definition scenario_listing_fails : App.World :=
  host (inl (mkExc (OtherException "ConnectionError") "connection lost"))
       (inr selection_search_text) (inr "unused") (inl boom).

(** The oracle asks for 50 results at depth "deep"; narration is unreachable. *)
Definition scenario_greedy : App.World :=
  host (inr [search_tool]) (inr selection_greedy_text)
       (inl unreachable) (inr [text_item "cats everywhere"]).

(** A tool whose [inputSchema] is present but is not an object, next to a
    usable [parameters]. *)
Definition odd_tool : App.RawTool := {|
  App.name := "odd";
  App.description := PyNone;
  App.inputSchema := Some (PyStr "object");
  App.parameters := Some (PyDict [("type", PyStr "object")])
|}.

(** A tool with neither attribute. *)
Definition bare_tool : App.RawTool := {|
  App.name := "bare";
  App.description := PyStr "no schema at all";
  App.inputSchema := None;
  App.parameters := None
|}.

(** The search provider: a key is configured and the request returns one hit. *)
Definition provider_reply : Json :=
  JObj [("answer", JStr "Cats are popular.");
        ("results", JArr [JObj [("title", JStr "Cats"); ("url", JStr "https://cats.example");
                                ("content", JStr "All about cats")]])].

Definition provider (key : option string) (outcome : Server.HttpOutcome) : Server.World := {|
  Server.TAVILY_API_KEY := key;
  Server.post := fun _ _ => outcome
|}.

Definition provider_ok : Server.World :=
  provider (Some "tvly-test") (Server.Returned provider_reply).

Definition provider_no_key : Server.World :=
  provider None (Server.Returned provider_reply).

Definition provider_down : Server.World :=
  provider (Some "tvly-test") (Server.HTTPStatusError 503 "Service Unavailable").

End Doubles.

(* ===================================================================== *)
(** ** src/app.py: the chat handler *)
(* ===================================================================== *)

Module Chat.
Import Py Tr.

(** The client of one interaction: how building it and entering
    [async with mcp_client_instance] ends, and how leaving the block ends.
    The client does not swallow an exception of the block. *)
Record Connection : Type := {
  aenter : Res unit;
  aexit : Res unit
}.

Inductive Event : Type :=
| Enter (outcome : Res unit)
| InTurn (ev : App.Event)
| Exit (outcome : Res unit).

Definition ConnectionRefusedError : ExcClass :=
  OtherException "ConnectionRefusedError".

Definition is_exit (ev : Event) : bool :=
  match ev with Exit _ => true | _ => false end.

Definition is_in_turn (ev : Event) : bool :=
  match ev with InTurn _ => true | _ => false end.

(** One entry of a [type='messages'] history. *)
Definition message (role : string) (content : PyVal) : PyVal :=
  PyDict [("role", PyStr role); ("content", content)].

(** An optional string as a Python value. *)
Definition py_optional (x : option string) : PyVal :=
  match x with
  | Some s => PyStr s
  | None => PyNone
  end.

Section Handler.
Variable rt : Runtime.
Variable c : Connection.
Variable w : App.World.

(** The [try] block of app.py 214-221: what it leaves in [bot_response], or
    the exception that leaves it. An exception raised on leaving the [with]
    block replaces the outcome of the block. *)
Definition guarded_turn (message_text : string)
  : Traced Event (Res (option string)) :=
  _ <- emit (Enter (aenter c)) ;;
  match aenter c with
  | inl e => ret (inl e)
  | inr _ =>
      let turn := App.process_user_query rt w message_text in
      (match aexit c with
       | inl e => inl e
       | inr _ => value turn
       end,
       (map InTurn (trace turn) ++ [Exit (aexit c)])%list)
  end.

(** app.py 214-226: [bot_response] after the two handlers. *)
Definition bot_response (message_text : string)
  : Traced Event (Res (option string)) :=
  r <- guarded_turn message_text ;;
  ret (try_except r
         [(ConnectionRefusedError,
           fun _ => inr (Some "Error: Could not connect to the MCP server. Is it running and accessible?"));
          (Exception,
           fun e => inr (Some ("An unexpected error occurred: " ++ exc_msg e)))]).

(** [chat_interface_fn] (app.py 208-232): the cleared textbox and the
    history. The code appends the two entries to the list it was given and
    returns that same list; the value here is its final contents. *)
Definition chat_interface_fn (message_text : string) (history : list PyVal)
  : Traced Event (Res (string * list PyVal)) :=
  r <- bot_response message_text ;;
  ret (res_bind r (fun answer =>
       inr (EmptyString,
            (history ++ [message "user" (PyStr message_text);
                         message "assistant" (py_optional answer)])%list))).

End Handler.

End Chat.

(* ===================================================================== *)
(** ** src/server.py: starting the server *)
(* ===================================================================== *)

Module Launch.
Import Py Tr.

(** How [mcp.run(transport="sse")] ends. *)
Inductive RunOutcome : Type :=
| Returned
| KeyboardInterrupt
| Raised (e : Exc).

Inductive Event : Type :=
| LogError (msg : string)
| LogInfo (msg : string)
| Run (outcome : RunOutcome).

Definition is_run (ev : Event) : bool :=
  match ev with Run _ => true | _ => false end.

(** [main] (server.py 88-102) *)
Definition main (w : Server.World) (run : RunOutcome) : Traced Event unit :=
  let configured :=
    match Server.TAVILY_API_KEY w with
    | Some key => negb (String.eqb key EmptyString)
    | None => false
    end in
  if negb configured then
    emit (LogError "TAVILY_API_KEY environment variable is required")
  else
    _ <- emit (LogInfo "Starting Tavily Search MCP Server...") ;;
    _ <- emit (Run run) ;;
    match run with
    | Returned => ret tt
    | KeyboardInterrupt => emit (LogInfo "Server stopped by user")
    | Raised e => emit (LogError ("Server error: " ++ exc_msg e))
    end.

End Launch.

(* ===================================================================== *)
(** ** Vocabulary for the properties below *)
(* ===================================================================== *)

Module Shape.
Import Py Tr.

Definition is_list_tools (ev : App.Event) : bool :=
  match ev with App.ListTools _ => true | _ => false end.

(** A call to the oracle with the selection prompt. *)
Definition is_selection (ev : App.Event) : bool :=
  match ev with
  | App.ChatCompletion system_prompt _ _ =>
      String.eqb system_prompt App.system_prompt_tool_selection
  | _ => false
  end.

Definition is_post (ev : Server.Event) : bool :=
  match ev with Server.Post _ _ _ => true | _ => false end.

Definition is_search (ev : Server.Event) : bool :=
  match ev with Server.Search _ _ _ => true | _ => false end.

(** The catalog entry of a tool whose schema is [schema] (app.py 86-90). *)
Definition catalog_entry (tool_obj : App.RawTool) (schema : PyVal) : PyVal :=
  PyDict [("name", PyStr (App.name tool_obj));
          ("description", App.description tool_obj);
          ("parameters_schema", schema)].

Definition get_or (key : string) (default : PyVal) (d : list (string * PyVal)) : PyVal :=
  match dict_get key d with Some x => x | None => default end.

(** The entry of server.py 68-74 for a provider result that is a dict. *)
Definition result_entry (d : list (string * PyVal)) : PyVal :=
  PyDict [("type", PyStr "result");
          ("title", get_or "title" (PyStr EmptyString) d);
          ("url", get_or "url" (PyStr EmptyString) d);
          ("content", get_or "content" (PyStr EmptyString) d);
          ("score", get_or "score" (PyFloat 0%float) d)].

(** The entry of server.py 60-64. *)
Definition answer_entry (content query : PyVal) : PyVal :=
  PyDict [("type", PyStr "answer"); ("content", content); ("query", query)].

(** No whitespace at either end. *)
Definition trimmed (s : string) : Prop :=
  match list_ascii_of_string s with
  | [] => True
  | c :: _ => is_space c = false
  end
  /\ match rev (list_ascii_of_string s) with
     | [] => True
     | c :: _ => is_space c = false
     end.

End Shape.

(* ===================================================================== *)
(** ** More test doubles *)
(* ===================================================================== *)

Module MoreDoubles.
Import Py Tr Doubles.

(** ["tavily_search" with no arguments]: {"tool_name":"tavily_search"} *)
Definition selection_bare_text : string :=
  "{" ++ quoted "tool_name" ++ ":" ++ quoted "tavily_search" ++ "}".

Definition selection_bare : Json := JObj [("tool_name", JStr "tavily_search")].

(** A reply that is JSON but not an object: ["tavily_search"] *)
Definition selection_array_text : string := "[" ++ quoted "tavily_search" ++ "]".

Definition selection_array : Json := JArr [JStr "tavily_search"].

Definition json_parse_more (s : string) : Exc + Json :=
  if String.eqb s selection_bare_text then inr selection_bare
  else if String.eqb s selection_array_text then inr selection_array
  else json_parse_double s.

Definition runtime_more : Runtime := {|
  json_parse := json_parse_more;
  json_float := json_float runtime;
  str_other := str_other runtime;
  int_other := fun v =>
    match v with
    | PyStr _ => inl (mkExc ValueError "invalid literal for int() with base 10")
    | _ => int_other runtime v
    end
|}.

Definition scenario_bare : App.World :=
  host (inr [search_tool]) (inr selection_bare_text)
       (inr "Nothing to search for.") (inr []).

Definition scenario_array : App.World :=
  host (inr [search_tool]) (inr selection_array_text) (inr "unused") (inl boom).

(** A tool whose schema holds a value [json.dumps] rejects. *)
Definition opaque_tool : App.RawTool := {|
  App.name := "opaque";
  App.description := PyStr "schema with a set in it";
  App.inputSchema := Some (PyDict [("enum", PyObject "builtins" "set")]);
  App.parameters := None
|}.

Definition scenario_opaque : App.World :=
  host (inr [search_tool; opaque_tool]) (inr selection_search_text)
       (inr "unused") (inr [text_item "unused"]).

(** A tool whose "parameters" object cannot be serialized for the prompt. *)
Definition raw_parameters_tool : App.RawTool := {|
  App.name := "raw";
  App.description := PyNone;
  App.inputSchema := None;
  App.parameters := Some (PyDict [("default", PyBytes "x")])
|}.

Definition scenario_raw_parameters : App.World :=
  host (inr [raw_parameters_tool]) (inr selection_search_text)
       (inr "unused") (inr [text_item "unused"]).

(** A listing with the same tool twice. *)
Definition scenario_twins : App.World :=
  host (inr [search_tool; bare_tool; search_tool]) (inr selection_search_text)
       (inr "unused") (inr [text_item "unused"]).

Definition connection_ok : Chat.Connection :=
  {| Chat.aenter := inr tt; Chat.aexit := inr tt |}.

Definition connection_refused : Chat.Connection :=
  {| Chat.aenter := inl (mkExc Chat.ConnectionRefusedError "[Errno 111] Connection refused");
     Chat.aexit := inr tt |}.

Definition connection_drops : Chat.Connection :=
  {| Chat.aenter := inr tt;
     Chat.aexit := inl (mkExc (OtherException "RuntimeError") "stream closed") |}.

Definition earlier_history : list PyVal :=
  [Chat.message "user" (PyStr "hello");
   Chat.message "assistant" (PyStr "Hi, how can I help?")].

(** Scenario B with a narration whose completion has no content. *)
Definition scenario_silent : App.World :=
  host_saying (inr [search_tool]) (inr (Some selection_search_text)) (inr None)
              (inr [text_item "AI news summary..."]).

(** No tool is chosen and the general answer has no content. *)
Definition scenario_no_tool_silent : App.World :=
  host_saying (inr [search_tool]) (inr (Some selection_null_text)) (inr None)
              (inl boom).

(** The selection's completion has no content. *)
Definition scenario_no_selection : App.World :=
  host_saying (inr [search_tool]) (inr None) (inr (Some "unused")) (inl boom).

(** An image as MCP carries it: base64 text in [data], the media type in
    [mimeType]. *)
Definition mcp_image (media_type base64 : string) : App.ContentItem := {|
  App.text := None;
  App.data := Some (PyStr base64);
  App.obj_dict := Some [("type", PyStr "image"); ("data", PyStr base64);
                        ("mimeType", PyStr media_type)];
  App.obj_str := "type='image' mimeType='" ++ media_type ++ "'"
|}.

(** An embedded resource as MCP carries it: its [__dict__] holds a model
    instance. *)
Definition mcp_resource : App.ContentItem := {|
  App.text := None;
  App.data := None;
  App.obj_dict := Some [("type", PyStr "resource");
                        ("resource", PyObject "mcp.types" "TextResourceContents")];
  App.obj_str := "type='resource'"
|}.

(** The search tool is selected and returns an embedded resource. *)
Definition scenario_resource : App.World :=
  host (inr [search_tool]) (inr selection_search_text)
       (inr "unused") (inr [mcp_resource]).

Definition provider_with (reply : Json) : Server.World :=
  provider (Some "tvly-test") (Server.Returned reply).

Definition two_hits : Json :=
  JObj [("results",
         JArr [JObj [("title", JStr "A"); ("url", JStr "https://a.example");
                     ("content", JStr "first"); ("score", JInt 1);
                     ("raw_content", JStr "dropped")];
               JObj [("url", JStr "https://b.example")]])].

Definition provider_timeout : Server.World :=
  provider (Some "tvly-test") (Server.RequestError "timed out").

End MoreDoubles.

(** Membership of a concrete event in the log of a concrete run. *)
Ltac find_event :=
  vm_compute; repeat (first [left; reflexivity | right]).

(* ===================================================================== *)
(** ** Facts about the runtime model *)
(* ===================================================================== *)

Section RuntimeFacts.
Import Py.

Lemma try_except_all {A : Type} (r : Res A) (h : Exc -> Res A) :
  try_except r [(Exception, h)] = match r with inl e => h e | inr a => inr a end.
Proof. destruct r as [e|a]; reflexivity. Qed.

Lemma issubclass_exc_Exception (c : ExcClass) : issubclass_exc c Exception = true.
Proof. reflexivity. Qed.

(** Whatever [json.loads] returns is made of JSON values only. *)
Lemma py_of_json_is_json : forall j, is_json (py_of_json j) = true.
Proof.
  fix IH 1.
  intros [ | b | n | x | s | items | entries]; simpl; try reflexivity.
  - induction items as [|a l IHl]; simpl; [reflexivity|].
    now rewrite IH, IHl.
  - induction entries as [|[k v] l IHl]; simpl; [reflexivity|].
    now rewrite IH, IHl.
Qed.

Lemma dict_get_is_json key entries v :
  is_json (PyDict entries) = true -> dict_get key entries = Some v ->
  is_json v = true.
Proof.
  simpl. induction entries as [|[k x] rest IH]; simpl; [discriminate|].
  intros Hall Hget. apply andb_prop in Hall as [Hx Hrest].
  destruct (String.eqb k key).
  - now inversion Hget; subst.
  - auto.
Qed.

(** [json.dumps] accepts every JSON value, at any indentation. *)
Lemma encode_total (jf : float -> string) (indent : option nat) :
  forall v level, is_json v = true -> exists s, encode jf indent level v = inr s.
Proof.
  fix IH 1.
  intros [ | [|] | n | x | s | raw | items | entries | n sch | m n] level Hj;
    simpl in *; try discriminate; try (eexists; reflexivity).
  - match goal with
    | |- context [res_bind (?go items) _] =>
        assert (Hgo : exists ps, go items = inr ps)
    end.
    { induction items as [|a l IHl]; simpl in *; [eexists; reflexivity|].
      apply andb_prop in Hj as [Ha Hl].
      destruct (IH a (S level) Ha) as [s ->]. simpl.
      destruct (IHl Hl) as [ps ->]. simpl. eexists; reflexivity. }
    destruct Hgo as [ps ->]. simpl. eexists; reflexivity.
  - match goal with
    | |- context [res_bind (?go entries) _] =>
        assert (Hgo : exists ps, go entries = inr ps)
    end.
    { induction entries as [|[k a] l IHl]; simpl in *; [eexists; reflexivity|].
      apply andb_prop in Hj as [Ha Hl].
      destruct (IH a (S level) Ha) as [s ->]. simpl.
      destruct (IHl Hl) as [ps ->]. simpl. eexists; reflexivity. }
    destruct Hgo as [ps ->]. simpl. eexists; reflexivity.
Qed.

Lemma json_dumps_total rt v :
  is_json v = true -> exists s, json_dumps rt v = inr s.
Proof. apply encode_total. Qed.

Lemma clamp_bounds (n : Z) :
  (1 <= Server.clamp_max_results n <= 20)%Z.
Proof. unfold Server.clamp_max_results. lia. Qed.

End RuntimeFacts.

(* ===================================================================== *)
(** ** Facts about the pipeline of app.py *)
(* ===================================================================== *)

Section AppFacts.
Import Py Tr App.
Variable rt : Runtime.
Variable w : World.

#[local] Opaque String.append String.concat.

Lemma completion_text_total (o : Res (option string)) :
  exists reply, completion_text o = inr reply.
Proof. destruct o as [e|s]; eexists; reflexivity. Qed.

Lemma general_prompt_is_not_selection :
  "You are a helpful AI assistant." <> system_prompt_tool_selection.
Proof. intro H. apply (f_equal (String.get 0)) in H. vm_compute in H. discriminate. Qed.

Lemma summarize_prompt_is_not_selection :
  system_prompt_summarize <> system_prompt_tool_selection.
Proof. intro H. apply (f_equal (String.get 0)) in H. vm_compute in H. discriminate. Qed.

Lemma general_prompt_is_not_summarize :
  "You are a helpful AI assistant." <> system_prompt_summarize.
Proof. intro H. apply (f_equal (String.get 10)) in H. vm_compute in H. discriminate. Qed.

(** The catalog fetch logs one call and never raises. *)
Lemma list_mcp_tools_with_schema_trace :
  trace (list_mcp_tools_with_schema rt w) = [ListTools (list_tools w)].
Proof. reflexivity. Qed.

Lemma list_mcp_tools_with_schema_returns :
  exists tools, value (list_mcp_tools_with_schema rt w) = inr tools.
Proof.
  unfold list_mcp_tools_with_schema, value, bind, emit, ret.
  cbv beta iota delta [fst snd]. rewrite try_except_all.
  destruct (res_bind _ _); eexists; reflexivity.
Qed.

(** A parsed selection holds JSON values only. *)
Lemma tool_choice_is_json s tool_name tool_arguments :
  tool_choice rt s = inr (tool_name, tool_arguments) ->
  is_json tool_name = true /\ is_json tool_arguments = true.
Proof.
  unfold tool_choice, json_loads_reply, json_loads.
  destruct s as [s|]; [|discriminate].
  destruct (json_parse rt s) as [e|j]; simpl; [discriminate|].
  pose proof (py_of_json_is_json j) as Hj.
  destruct (py_of_json j); simpl; try discriminate.
  intros H. inversion H; subst; clear H. split.
  - destruct (dict_get "tool_name" entries) eqn:E; [|reflexivity].
    eapply dict_get_is_json; eauto.
  - destruct (dict_get "arguments" entries) eqn:E; [|reflexivity].
    eapply dict_get_is_json; eauto.
Qed.

(** The two handlers of app.py 153-156 catch everything. *)
Lemma parse_tool_choice_returns s :
  exists r, parse_tool_choice rt s = inr r.
Proof.
  unfold parse_tool_choice.
  destruct (tool_choice rt s) as [e|sel]; simpl; [|eexists; reflexivity].
  destruct (exc_class e); eexists; reflexivity.
Qed.

Lemma parse_tool_choice_selected s sel :
  tool_choice rt s = inr sel -> parse_tool_choice rt s = inr (inr sel).
Proof. unfold parse_tool_choice. now intros ->. Qed.

(** The stages, as value and log. *)
Lemma ask_openai_run system_prompt user_prompt :
  ask_openai w system_prompt user_prompt
  = (completion_text (chat_completions_create w system_prompt user_prompt),
     [ChatCompletion system_prompt user_prompt
                     (chat_completions_create w system_prompt user_prompt)]).
Proof. reflexivity. Qed.

Lemma summarize_run q tool_name tool_arguments out arguments_json :
  json_dumps rt tool_arguments = inr arguments_json ->
  summarize rt w q tool_name tool_arguments out
  = ask_openai w system_prompt_summarize
               (user_prompt_summarize rt q tool_name arguments_json out).
Proof. unfold summarize. now intros ->. Qed.

Lemma answer_without_tool_run q :
  let completion :=
    chat_completions_create w "You are a helpful AI assistant."
                            (general_answer_prompt q) in
  answer_without_tool w q
  = (res_bind (completion_text completion) (fun general_response =>
       inr (Some (no_tool_answer general_response))),
     [ChatCompletion "You are a helpful AI assistant." (general_answer_prompt q)
                     completion]).
Proof. reflexivity. Qed.

Lemma call_mcp_tool_not_dict tool_name tool_arguments :
  is_dict tool_arguments = false ->
  call_mcp_tool rt w tool_name tool_arguments
  = (inr (inl (arguments_error rt tool_name tool_arguments)), []).
Proof. unfold call_mcp_tool. now intros ->. Qed.

Lemma call_mcp_tool_dict tool_name tool_arguments :
  is_dict tool_arguments = true ->
  call_mcp_tool rt w tool_name tool_arguments
  = (match call_tool w tool_name tool_arguments with
     | inl e => inr (inl (tool_error rt tool_name e))
     | inr items =>
         match tool_output_for_llm rt items with
         | inl e => inr (inl (tool_error rt tool_name e))
         | inr out => inr (inr out)
         end
     end,
     [CallTool tool_name tool_arguments (call_tool w tool_name tool_arguments)]).
Proof.
  unfold call_mcp_tool. intros ->. cbn [negb].
  unfold bind, emit, ret. cbn [fst snd app]. rewrite try_except_all.
  destruct (call_tool w tool_name tool_arguments) as [e|items]; [reflexivity|].
  cbn [res_bind]. destruct (tool_output_for_llm rt items); reflexivity.
Qed.

Lemma act_on_choice_no_tool q tool_name tool_arguments :
  truthy tool_name = false ->
  act_on_choice rt w q tool_name tool_arguments = answer_without_tool w q.
Proof. unfold act_on_choice. now intros ->. Qed.

Lemma act_on_choice_tool q tool_name tool_arguments :
  truthy tool_name = true ->
  act_on_choice rt w q tool_name tool_arguments
  = (r <- call_mcp_tool rt w tool_name tool_arguments ;;
     match r with
     | inl e => ret (inl e)
     | inr (inl msg) => ret (inr (Some msg))
     | inr (inr out) => summarize rt w q tool_name tool_arguments out
     end).
Proof. unfold act_on_choice. now intros ->. Qed.

Lemma act_on_reply_selected q s tool_name tool_arguments :
  tool_choice rt s = inr (tool_name, tool_arguments) ->
  act_on_reply rt w q (inr s) = act_on_choice rt w q tool_name tool_arguments.
Proof.
  intros Hc. unfold act_on_reply. cbn [res_bind].
  now rewrite (parse_tool_choice_selected s _ Hc).
Qed.

(** No event after the selection is another selection call, and every tool
    call that is logged was made with the selected name and arguments. *)
Lemma act_on_choice_events q tool_name tool_arguments ev :
  In ev (trace (act_on_choice rt w q tool_name tool_arguments)) ->
  match ev with
  | ListTools _ => False
  | ChatCompletion system_prompt _ _ =>
      system_prompt <> system_prompt_tool_selection
  | CallTool n a o =>
      n = tool_name /\ a = tool_arguments /\ o = call_tool w n a
      /\ truthy n = true /\ is_dict a = true
  end.
Proof.
  unfold act_on_choice.
  destruct (truthy tool_name) eqn:Ht; simpl.
  - unfold call_mcp_tool.
    destruct (is_dict tool_arguments) eqn:Hd; simpl; [|tauto].
    intros [<-|Hin]; [auto|].
    destruct (call_tool w tool_name tool_arguments) as [e|items]; simpl in Hin; [tauto|].
    destruct (tool_output_for_llm rt items) as [e|out]; simpl in Hin; [tauto|].
    unfold summarize in Hin.
    destruct (json_dumps rt tool_arguments); simpl in Hin; [tauto|].
    destruct Hin as [<-|[]]. apply summarize_prompt_is_not_selection.
  - intros [<-|[]]. apply general_prompt_is_not_selection.
Qed.

Lemma act_on_reply_events q reply ev :
  In ev (trace (act_on_reply rt w q reply)) ->
  match ev with
  | ListTools _ => False
  | ChatCompletion system_prompt _ _ =>
      system_prompt <> system_prompt_tool_selection
  | CallTool n a o =>
      exists s, reply = inr s /\ tool_choice rt s = inr (n, a)
                /\ o = call_tool w n a /\ truthy n = true /\ is_dict a = true
  end.
Proof.
  unfold act_on_reply.
  destruct reply as [e|s]; simpl; [tauto|].
  unfold parse_tool_choice.
  destruct (tool_choice rt s) as [e|[n a]] eqn:Hc; simpl.
  - destruct (exc_class e); simpl; tauto.
  - intros Hin. apply act_on_choice_events in Hin.
    destruct ev; auto.
    destruct Hin as (-> & -> & -> & Ht & Hd). eauto 10.
Qed.

(** The turn, stage by stage. *)
Lemma process_user_query_run q tools :
  value (list_mcp_tools_with_schema rt w) = inr tools ->
  process_user_query rt w q
  = match tools with
    | [] => (inr (Some "Error: Could not retrieve tools from the MCP server."),
             [ListTools (list_tools w)])
    | _ => (value (select_and_act rt w q tools),
            ListTools (list_tools w) :: trace (select_and_act rt w q tools))
    end.
Proof.
  intros Htools. unfold process_user_query, bind.
  fold (value (list_mcp_tools_with_schema rt w)).
  fold (trace (list_mcp_tools_with_schema rt w)).
  rewrite Htools, list_mcp_tools_with_schema_trace.
  destruct tools; reflexivity.
Qed.

Lemma select_and_act_run q tools :
  select_and_act rt w q tools
  = match json_dumps_indent2 rt (PyList tools) with
    | inl e => (inl e, [])
    | inr tools_json =>
        let user_prompt := user_prompt_tool_selection q tools_json in
        let completion :=
          chat_completions_create w system_prompt_tool_selection user_prompt in
        (value (act_on_reply rt w q (completion_text completion)),
         ChatCompletion system_prompt_tool_selection user_prompt completion
           :: trace (act_on_reply rt w q (completion_text completion)))
    end.
Proof.
  unfold select_and_act.
  destruct (json_dumps_indent2 rt (PyList tools)); reflexivity.
Qed.

(** The shape of a turn that reached the selection stage. *)
Lemma selection_event q user_prompt completion :
  In (ChatCompletion system_prompt_tool_selection user_prompt completion)
     (trace (process_user_query rt w q)) ->
  completion = chat_completions_create w system_prompt_tool_selection user_prompt
  /\ process_user_query rt w q
     = (value (act_on_reply rt w q (completion_text completion)),
        ListTools (list_tools w)
          :: ChatCompletion system_prompt_tool_selection user_prompt completion
          :: trace (act_on_reply rt w q (completion_text completion))).
Proof.
  destruct list_mcp_tools_with_schema_returns as [tools Htools].
  rewrite (process_user_query_run q tools Htools).
  destruct tools as [|t ts].
  { intros [H|[]]; discriminate. }
  rewrite select_and_act_run.
  destruct (json_dumps_indent2 rt (PyList (t :: ts))) as [e|tools_json].
  { intros [H|[]]; discriminate. }
  cbv zeta. unfold trace, value. cbn [fst snd].
  intros [H|[H|Hin]]; [discriminate| |].
  - inversion H; subst. split; reflexivity.
  - apply act_on_reply_events in Hin. now elim Hin.
Qed.

(** The shape of a turn in which the tool was called. *)
Lemma call_tool_event q tool_name tool_arguments outcome :
  In (CallTool tool_name tool_arguments outcome) (trace (process_user_query rt w q)) ->
  exists user_prompt completion s,
    In (ChatCompletion system_prompt_tool_selection user_prompt completion)
       (trace (process_user_query rt w q))
    /\ completion_text completion = inr s
    /\ tool_choice rt s = inr (tool_name, tool_arguments)
    /\ outcome = call_tool w tool_name tool_arguments
    /\ truthy tool_name = true /\ is_dict tool_arguments = true.
Proof.
  destruct list_mcp_tools_with_schema_returns as [tools Htools].
  rewrite (process_user_query_run q tools Htools).
  destruct tools as [|t ts].
  { intros [H|[]]; discriminate. }
  rewrite select_and_act_run.
  destruct (json_dumps_indent2 rt (PyList (t :: ts))) as [e|tools_json].
  { intros [H|[]]; discriminate. }
  cbv zeta. unfold trace, value. cbn [fst snd].
  intros [H|[H|Hin]]; try discriminate.
  apply act_on_reply_events in Hin.
  destruct Hin as (s & Hs & Hc & Ho & Ht & Hd).
  do 3 eexists. split; [right; left; reflexivity|]. eauto 10.
Qed.

End AppFacts.

(* ===================================================================== *)
(** ** The claims about app.py *)
(* ===================================================================== *)

Section AppClaims.
Import Py Tr App.
Variable rt : Runtime.
Variable w : World.

#[local] Opaque String.append String.concat.

(** After the catalog has been serialized for the prompt, a turn does not
    raise. *)
Lemma act_on_choice_returns q tool_name tool_arguments :
  is_json tool_arguments = true ->
  exists answer, value (act_on_choice rt w q tool_name tool_arguments) = inr answer.
Proof.
  intros Hj.
  destruct (truthy tool_name) eqn:Ht.
  - rewrite (act_on_choice_tool rt w q _ _ Ht).
    destruct (is_dict tool_arguments) eqn:Hd.
    + rewrite (call_mcp_tool_dict rt w _ _ Hd). unfold bind, value. cbn [fst snd].
      destruct (call_tool w tool_name tool_arguments) as [e|items];
        [eexists; reflexivity|].
      destruct (tool_output_for_llm rt items) as [e|out];
        [eexists; reflexivity|].
      destruct (json_dumps_total rt _ Hj) as [aj Haj].
      rewrite (summarize_run rt w q tool_name tool_arguments out aj Haj).
      rewrite ask_openai_run. apply completion_text_total.
    + rewrite (call_mcp_tool_not_dict rt w _ _ Hd). eexists; reflexivity.
  - rewrite (act_on_choice_no_tool rt w q _ _ Ht).
    rewrite answer_without_tool_run. cbv zeta. unfold value. cbn [fst].
    destruct (completion_text_total
                (chat_completions_create w "You are a helpful AI assistant."
                                         (general_answer_prompt q))) as [g ->].
    eexists; reflexivity.
Qed.

Lemma act_on_reply_returns q completion :
  exists answer,
    value (act_on_reply rt w q (completion_text completion)) = inr answer.
Proof.
  destruct (completion_text_total completion) as [s ->].
  destruct (tool_choice rt s) as [e|[n a]] eqn:Hc.
  - unfold act_on_reply, parse_tool_choice. cbn [res_bind]. rewrite Hc.
    cbn [res_bind try_except].
    destruct (issubclass_exc (exc_class e) JSONDecodeError);
      [eexists; reflexivity|].
    cbn [try_except]. rewrite issubclass_exc_Exception. eexists; reflexivity.
  - rewrite (act_on_reply_selected rt w q s n a Hc).
    apply act_on_choice_returns. eapply tool_choice_is_json; eauto.
Qed.

(** C1, as the code has it. The normalized result of a successful tool
    call: the sentinel for an empty content list; the first item's text,
    verbatim, when it has one; else, when the first item has a [data] field,
    the placeholder naming the Python class of that field's value (for the
    base64 text of an MCP image that is [<class 'str'>]), the same text for
    any two values of one class, so neither the payload nor the media type is
    in it; else, when the views ([__dict__], or [str]) of the items are
    JSON values, the JSON serialization of the list of the views of every
    item. A result that has such a string is what the narration is given. *)
Theorem tool_output_normalized (items : list ContentItem) :
  (items = [] ->
   tool_output_for_llm rt items
   = inr "Tool executed successfully but returned no content.")
  /\ (forall first rest t,
        items = first :: rest -> text first = Some t ->
        tool_output_for_llm rt items = inr t)
  /\ (forall first rest d,
        items = first :: rest -> text first = None -> data first = Some d ->
        tool_output_for_llm rt items
        = inr ("[Binary data received, type: " ++ type_repr d ++ "]")
        /\ forall d',
            type_module d' = type_module d -> type_name d' = type_name d ->
            binary_placeholder d' = binary_placeholder d)
  /\ ((forall base64, binary_placeholder (PyStr base64)
                      = "[Binary data received, type: <class 'str'>]")
      /\ (forall raw, binary_placeholder (PyBytes raw)
                      = "[Binary data received, type: <class 'bytes'>]")
      /\ binary_placeholder PyNone
         = "[Binary data received, type: <class 'NoneType'>]"
      /\ (forall entries, binary_placeholder (PyDict entries)
                          = "[Binary data received, type: <class 'dict'>]")
      /\ (forall module_ class_name,
            binary_placeholder (PyObject module_ class_name)
            = "[Binary data received, type: "
              ++ ("<class '" ++ (module_ ++ ".") ++ class_name ++ "'>") ++ "]"))
  /\ (forall first rest,
        items = first :: rest -> text first = None -> data first = None ->
        is_json (PyList (map object_view items)) = true ->
        exists out,
          tool_output_for_llm rt items = inr out
          /\ json_dumps rt (PyList (map object_view items)) = inr out)
  /\ (forall tool_name tool_arguments out,
        is_dict tool_arguments = true ->
        call_tool w tool_name tool_arguments = inr items ->
        tool_output_for_llm rt items = inr out ->
        value (call_mcp_tool rt w tool_name tool_arguments) = inr (inr out)).
Proof.
  split; [|split; [|split; [|split; [|split]]]].
  - now intros ->.
  - intros first rest t -> Ht. cbn [tool_output_for_llm]. now rewrite Ht.
  - intros first rest d -> Ht Hd. split.
    + cbn [tool_output_for_llm]. now rewrite Ht, Hd.
    + intros d' Hm Hn. unfold binary_placeholder, type_repr. now rewrite Hm, Hn.
  - repeat split; intros; reflexivity.
  - intros first rest -> Ht Hd Hj.
    destruct (json_dumps_total rt _ Hj) as [out Hout].
    exists out. split; [|assumption].
    cbn [tool_output_for_llm]. now rewrite Ht, Hd.
  - intros n a out Hd Hcall Hout. rewrite (call_mcp_tool_dict rt w n a Hd).
    unfold value. cbn [fst]. now rewrite Hcall, Hout.
Qed.

(** C2, as the code has it. When [call_tool] raises, the turn's answer is
    the one string "Error executing tool '<name>' on MCP server: <message>"
    with the selected tool's name and the message of the exception; the
    arguments are not part of it. The log of the turn ends with the failed
    call: the only oracle call is the selection, there is no narration. *)
Theorem tool_failure_is_the_answer q tool_name tool_arguments e :
  In (CallTool tool_name tool_arguments (inl e))
     (trace (process_user_query rt w q)) ->
  exists user_prompt completion,
    process_user_query rt w q
    = (inr (Some ("Error executing tool '" ++ fmt rt tool_name
                  ++ "' on MCP server: " ++ exc_msg e)),
       [ListTools (list_tools w);
        ChatCompletion system_prompt_tool_selection user_prompt completion;
        CallTool tool_name tool_arguments (inl e)])
    /\ forall n, tool_name = PyStr n -> fmt rt tool_name = n.
Proof.
  intros Hin.
  destruct (call_tool_event rt w q _ _ _ Hin)
    as (u & c & s & Hsel & Hs & Hc & Ho & Ht & Hd).
  destruct (selection_event rt w q u c Hsel) as [_ Hrun].
  exists u, c. split; [|now intros n ->].
  rewrite Hrun, Hs, (act_on_reply_selected rt w q s _ _ Hc).
  rewrite (act_on_choice_tool rt w q _ _ Ht), (call_mcp_tool_dict rt w _ _ Hd).
  rewrite <- Ho. reflexivity.
Qed.

(** C3. When listing the tools raises or yields no tool, the catalog fetch
    returns the empty catalog, and the turn answers with the fixed message
    after that one call: no oracle call, no tool call. *)
Theorem catalog_unavailable q :
  (exists e, list_tools w = inl e) \/ list_tools w = inr [] ->
  value (list_mcp_tools_with_schema rt w) = inr []
  /\ process_user_query rt w q
     = (inr (Some "Error: Could not retrieve tools from the MCP server."),
        [ListTools (list_tools w)])
  /\ forallb (fun ev => negb (is_chat_completion ev) && negb (is_call_tool ev))
             (trace (process_user_query rt w q)) = true.
Proof.
  intros H.
  assert (Hcat : value (list_mcp_tools_with_schema rt w) = inr []).
  { unfold list_mcp_tools_with_schema, value, bind, emit, ret.
    cbv beta iota delta [fst snd]. rewrite try_except_all.
    destruct H as [[e ->]| ->]; reflexivity. }
  rewrite (process_user_query_run rt w q [] Hcat). repeat split; assumption.
Qed.

(** C4. When the oracle's reply to the selection prompt is not valid JSON
    ([json.loads] raises [JSONDecodeError]), the turn ends right after the
    selection call with the invalid-JSON message, which carries the raw
    reply at its end; no tool is called. *)
Theorem invalid_json_selection q user_prompt completion s e :
  In (ChatCompletion system_prompt_tool_selection user_prompt completion)
     (trace (process_user_query rt w q)) ->
  completion_text completion = inr (Some s) ->
  json_parse rt s = inl e -> exc_class e = JSONDecodeError ->
  process_user_query rt w q
  = (inr (Some ("Error: LLM did not provide a valid JSON response for tool selection. LLM response:"
                ++ nl ++ s)),
     [ListTools (list_tools w);
      ChatCompletion system_prompt_tool_selection user_prompt completion])
  /\ forallb (fun ev => negb (is_call_tool ev))
             (trace (process_user_query rt w q)) = true.
Proof.
  intros Hsel Hs Hparse Hclass.
  destruct (selection_event rt w q _ _ Hsel) as [_ Hrun].
  assert (Hreply : act_on_reply rt w q (inr (Some s))
                   = (inr (Some (invalid_json_error (Some s))), [])).
  { unfold act_on_reply, parse_tool_choice, tool_choice, json_loads_reply, json_loads.
    cbn [res_bind]. rewrite Hparse. cbn [res_bind try_except].
    rewrite Hclass. reflexivity. }
  rewrite Hrun, Hs, Hreply. split; reflexivity.
Qed.

(** C5. When the selection names a tool by a non-empty string and its
    arguments are not a dict, the turn ends right after the selection call
    with the message naming the tool and the type received; [call_tool] is
    not called. *)
Theorem malformed_arguments q user_prompt completion s n tool_arguments :
  In (ChatCompletion system_prompt_tool_selection user_prompt completion)
     (trace (process_user_query rt w q)) ->
  completion_text completion = inr s ->
  tool_choice rt s = inr (PyStr n, tool_arguments) ->
  n <> EmptyString ->
  is_dict tool_arguments = false ->
  process_user_query rt w q
  = (inr (Some ("Error: LLM provided arguments in an incorrect format for tool '"
                ++ n ++ "'. Expected a dictionary, got "
                ++ type_repr tool_arguments ++ ".")),
     [ListTools (list_tools w);
      ChatCompletion system_prompt_tool_selection user_prompt completion])
  /\ forallb (fun ev => negb (is_call_tool ev))
             (trace (process_user_query rt w q)) = true.
Proof.
  intros Hsel Hs Hc Hn Hd.
  destruct (selection_event rt w q _ _ Hsel) as [_ Hrun].
  assert (Ht : truthy (PyStr n) = true).
  { cbn [truthy]. destruct (String.eqb_spec n EmptyString); [contradiction|reflexivity]. }
  rewrite Hrun, Hs, (act_on_reply_selected rt w q s _ _ Hc).
  rewrite (act_on_choice_tool rt w q _ _ Ht), (call_mcp_tool_not_dict rt w _ _ Hd).
  split; reflexivity.
Qed.

(** C6. When the selected tool name is null or otherwise falsy (the empty
    string among others), the turn makes one more oracle call, for a general
    answer, and returns it behind the marker "(No specific tool was used by
    the LLM for your query)"; [call_tool] is not called. The answer and the
    log do not depend on which falsy value the name is. *)
Theorem no_tool_selected q user_prompt completion s tool_name tool_arguments :
  In (ChatCompletion system_prompt_tool_selection user_prompt completion)
     (trace (process_user_query rt w q)) ->
  completion_text completion = inr s ->
  tool_choice rt s = inr (tool_name, tool_arguments) ->
  truthy tool_name = false ->
  let general :=
    chat_completions_create w "You are a helpful AI assistant."
                            (general_answer_prompt q) in
  exists general_response,
    completion_text general = inr general_response
    /\ process_user_query rt w q
       = (inr (Some ("(No specific tool was used by the LLM for your query)" ++ nl
                     ++ "LLM: " ++ fmt_optional general_response)),
          [ListTools (list_tools w);
           ChatCompletion system_prompt_tool_selection user_prompt completion;
           ChatCompletion "You are a helpful AI assistant."
                          (general_answer_prompt q) general])
    /\ forallb (fun ev => negb (is_call_tool ev))
               (trace (process_user_query rt w q)) = true
    /\ truthy PyNone = false /\ truthy (PyStr EmptyString) = false.
Proof.
  intros Hsel Hs Hc Ht general.
  destruct (selection_event rt w q _ _ Hsel) as [_ Hrun].
  destruct (completion_text_total general) as [g Hg].
  exists g. split; [assumption|].
  rewrite Hrun, Hs, (act_on_reply_selected rt w q s _ _ Hc).
  rewrite (act_on_choice_no_tool rt w q _ _ Ht), answer_without_tool_run.
  cbv zeta. fold general. rewrite Hg. repeat split.
Qed.

(** C8, as the code has it. The narration stage does not raise, and what
    it returns is what the oracle's completion holds. With a tool: for
    arguments made of JSON values, as the arguments of every parsed selection
    are, [summarize] makes the one oracle call and returns the completion's
    content as it is: its text, or [None] when the completion has no
    content; when the call raises it returns the inline text "Error: Could
    not contact OpenAI - ...". Without a tool the result is always a string:
    the no-tool marker followed by the text, by "None", or by the inline
    error text. In a whole turn: once the catalog has been serialized for
    the prompt, the turn does not raise. *)
Theorem narration_never_raises q :
  (forall tool_name tool_arguments out,
      is_json tool_arguments = true ->
      exists arguments_json,
        json_dumps rt tool_arguments = inr arguments_json
        /\ let user_prompt :=
             user_prompt_summarize rt q tool_name arguments_json out in
           let completion :=
             chat_completions_create w system_prompt_summarize user_prompt in
           summarize rt w q tool_name tool_arguments out
           = (inr (match completion with
                   | inr (Some content) => Some content
                   | inr None => None
                   | inl e => Some ("Error: Could not contact OpenAI - " ++ exc_msg e)
                   end),
              [ChatCompletion system_prompt_summarize user_prompt completion]))
  /\ (let completion :=
        chat_completions_create w "You are a helpful AI assistant."
                                (general_answer_prompt q) in
      answer_without_tool w q
      = (inr (Some ("(No specific tool was used by the LLM for your query)" ++ nl
                    ++ "LLM: "
                    ++ match completion with
                       | inr (Some content) => content
                       | inr None => "None"
                       | inl e => "Error: Could not contact OpenAI - " ++ exc_msg e
                       end)),
         [ChatCompletion "You are a helpful AI assistant."
                         (general_answer_prompt q) completion]))
  /\ (forall s tool_name tool_arguments,
        tool_choice rt s = inr (tool_name, tool_arguments) ->
        is_json tool_arguments = true)
  /\ (forall system_prompt user_prompt completion,
        In (ChatCompletion system_prompt user_prompt completion)
           (trace (process_user_query rt w q)) ->
        exists answer, value (process_user_query rt w q) = inr answer).
Proof.
  split; [|split; [|split]].
  - intros n a out Hj.
    destruct (json_dumps_total rt _ Hj) as [aj Haj].
    exists aj. split; [assumption|]. cbv zeta.
    rewrite (summarize_run rt w q n a out aj Haj), ask_openai_run.
    destruct (chat_completions_create w _ _) as [e|[content|]]; reflexivity.
  - cbv zeta. rewrite answer_without_tool_run. cbv zeta.
    destruct (chat_completions_create w _ _) as [e|[content|]]; reflexivity.
  - intros s n a Hc. eapply tool_choice_is_json; eauto.
  - intros sp up c Hin.
    destruct list_mcp_tools_with_schema_returns with (rt := rt) (w := w)
      as [tools Htools].
    rewrite (process_user_query_run rt w q tools Htools) in *.
    destruct tools as [|t ts].
    { destruct Hin as [H|[]]; discriminate. }
    rewrite select_and_act_run in *.
    destruct (json_dumps_indent2 rt (PyList (t :: ts))) as [e|tools_json].
    { destruct Hin as [H|[]]; discriminate. }
    cbv zeta. unfold value at 1. cbn [fst]. apply act_on_reply_returns.
Qed.

(** C7, as the code has it. When [inputSchema] is present and not [None]
    it decides alone: a JSON object is the schema, anything else gives the
    empty object and "parameters" is not looked at. Only when [inputSchema]
    is absent or [None] is "parameters" tried: a schema-bearing class gives
    its schema, an object is used as it is, anything else gives the empty
    object. So the code agrees with the chain of section 4.1 exactly when
    [inputSchema] is absent, [None] or a JSON object. A tool with neither
    attribute gets the empty object, and a catalog of such tools is
    normalized without raising. *)
Theorem parameter_schema_chain (tool_obj : RawTool) :
  (inputSchema tool_obj = None \/ inputSchema tool_obj = Some PyNone
   \/ (exists entries, inputSchema tool_obj = Some (PyDict entries)
                       /\ is_json (PyDict entries) = true) ->
   parameter_schema_for_llm rt tool_obj = Spec.spec_parameter_schema tool_obj)
  /\ (forall entries,
        inputSchema tool_obj = Some (PyDict entries) ->
        is_json (PyDict entries) = true ->
        parameter_schema_for_llm rt tool_obj = inr (PyDict entries))
  /\ (forall v,
        inputSchema tool_obj = Some v -> v <> PyNone -> is_dict v = false ->
        parameter_schema_for_llm rt tool_obj = inr (PyDict []))
  /\ (inputSchema tool_obj = None \/ inputSchema tool_obj = Some PyNone ->
      (forall cls schema,
          parameters tool_obj = Some (PyModelClass cls schema) ->
          parameter_schema_for_llm rt tool_obj = schema)
      /\ (forall entries,
            parameters tool_obj = Some (PyDict entries) ->
            parameter_schema_for_llm rt tool_obj = inr (PyDict entries))
      /\ (parameters tool_obj = None ->
          parameter_schema_for_llm rt tool_obj = inr (PyDict [])))
  /\ (forall raw_tools,
        Forall (fun t => inputSchema t = None /\ parameters t = None) raw_tools ->
        tools_data rt raw_tools
        = inr (map (fun t => PyDict [("name", PyStr (name t));
                                     ("description", description t);
                                     ("parameters_schema", PyDict [])])
                   raw_tools)).
Proof.
  split; [|split; [|split; [|split]]].
  - unfold parameter_schema_for_llm, Spec.spec_parameter_schema.
    intros [Hi | [Hi | (entries & Hi & Hj)]]; rewrite Hi.
    + destruct (parameters tool_obj) as [[]|]; reflexivity.
    + destruct (parameters tool_obj) as [[]|]; reflexivity.
    + destruct (encode_total (json_float rt) (Some 2%nat) _ 0%nat Hj) as [txt Htxt].
      unfold json_dumps_indent2. now rewrite Htxt.
  - intros entries Hin Hj. unfold parameter_schema_for_llm. rewrite Hin.
    destruct (encode_total (json_float rt) (Some 2%nat) _ 0%nat Hj) as [txt Htxt].
    unfold json_dumps_indent2. now rewrite Htxt.
  - intros v Hin Hnone Hd. unfold parameter_schema_for_llm. rewrite Hin.
    destruct v; try reflexivity; [contradiction|discriminate].
  - intros Habsent. unfold parameter_schema_for_llm.
    split; [|split].
    + intros cls schema Hp. destruct Habsent as [-> | ->]; now rewrite Hp.
    + intros entries Hp. destruct Habsent as [-> | ->]; now rewrite Hp.
    + intros Hp. destruct Habsent as [-> | ->]; now rewrite Hp.
  - intros raw_tools Hall. induction Hall as [|t l [Hi Hp] _ IH]; [reflexivity|].
    cbn [tools_data map]. unfold parameter_schema_for_llm at 1.
    rewrite Hi, Hp. cbn [res_bind]. rewrite IH. reflexivity.
Qed.

End AppClaims.

(* ===================================================================== *)
(** ** The search tool of server.py *)
(* ===================================================================== *)

Section ServerFacts.
Import Py Tr Server.
Variable rt : Runtime.
Variable w : World.

#[local] Opaque String.append String.concat.

Lemma clamp_cases (m : Z) :
  let n := clamp_max_results m in
  (1 <= n <= 20)%Z /\ ((m < 1)%Z -> n = 1%Z) /\ ((20 < m)%Z -> n = 20%Z)
  /\ ((1 <= m <= 20)%Z -> n = m).
Proof. unfold clamp_max_results. cbv zeta. lia. Qed.

Lemma checked_search_depth_cases (search_depth : PyVal) :
  checked_search_depth search_depth = PyStr "basic"
  \/ checked_search_depth search_depth = PyStr "advanced".
Proof.
  unfold checked_search_depth, py_in_strs.
  destruct search_depth; cbn [negb]; auto.
  cbn [existsb].
  destruct (String.eqb_spec s "basic") as [->|_]; cbn [orb negb]; auto.
  destruct (String.eqb_spec s "advanced") as [->|_]; cbn [orb negb]; auto.
Qed.

Lemma tavily_search_trace query max_results search_depth :
  trace (tavily_search rt w query max_results search_depth)
  = trace (tavily_search_body rt w query max_results search_depth).
Proof. unfold tavily_search, trace, bind. cbn [snd ret]. apply app_nil_r. Qed.

Lemma tavily_search_value query max_results search_depth :
  value (tavily_search rt w query max_results search_depth)
  = try_except (value (tavily_search_body rt w query max_results search_depth))
      [(TavilySearchError,
        fun e => inr (error_list ("Search failed: " ++ exc_msg e)));
       (ValueError,
        fun e => inr (error_list ("Configuration error: " ++ exc_msg e)));
       (Exception,
        fun e => inr (error_list ("Unexpected error: " ++ exc_msg e)))].
Proof. reflexivity. Qed.

(** The body of the tool when the query is usable, the limit converts and a
    key is configured: the search is made with the clamped limit and the
    checked depth. *)
Lemma tavily_search_body_searches q max_results search_depth m key :
  String.eqb (strip q) EmptyString = false ->
  py_int rt max_results = inr m ->
  get_tavily_client w = inr key ->
  tavily_search_body rt w (PyStr q) max_results search_depth
  = (r <- search w key q (clamp_max_results m) (checked_search_depth search_depth) ;;
     ret (res_bind r (fun results =>
          res_bind (format_results (PyStr q) results) (fun formatted_results =>
          inr (PyList formatted_results))))).
Proof.
  intros Hq Hm Hkey. unfold tavily_search_body. now rewrite Hq, Hm, Hkey.
Qed.

Lemma search_trace key q n d :
  String.eqb (strip q) EmptyString = false ->
  trace (search w key q n d)
  = [Search q n d;
     Post (base_url ++ "/search")
          (PyDict [("api_key", PyStr key);
                   ("query", PyStr (strip q));
                   ("max_results", PyInt n);
                   ("search_depth", d);
                   ("include_answer", PyBool true);
                   ("include_images", PyBool false);
                   ("include_raw_content", PyBool false)])
          (post w (base_url ++ "/search")
             (PyDict [("api_key", PyStr key);
                      ("query", PyStr (strip q));
                      ("max_results", PyInt n);
                      ("search_depth", d);
                      ("include_answer", PyBool true);
                      ("include_images", PyBool false);
                      ("include_raw_content", PyBool false)]))].
Proof. intros Hq. unfold search. rewrite Hq. reflexivity. Qed.

(** Every event the tool logs comes from one search, made with the clamped
    limit and the checked depth. *)
Lemma tavily_search_events query max_results search_depth ev :
  In ev (trace (tavily_search rt w query max_results search_depth)) ->
  exists q m key,
    query = PyStr q /\ py_int rt max_results = inr m
    /\ get_tavily_client w = inr key
    /\ In ev (trace (search w key q (clamp_max_results m)
                            (checked_search_depth search_depth)))
    /\ String.eqb (strip q) EmptyString = false.
Proof.
  rewrite tavily_search_trace. unfold tavily_search_body.
  destruct query; try (intros []).
  destruct (String.eqb (strip s) EmptyString) eqn:Hq; [intros []|].
  destruct (py_int rt max_results) as [e|m] eqn:Hm; [intros []|].
  destruct (get_tavily_client w) as [e|key] eqn:Hk; [intros []|].
  unfold trace at 1, bind. cbn [snd ret]. rewrite app_nil_r.
  intros Hin. exists s, m, key. auto.
Qed.

End ServerFacts.

Section ServerClaims.
Import Py Tr.
Variable rt : Runtime.
Variable w : Server.World.

#[local] Opaque String.append String.concat.

(** The three handlers of server.py 78-86 turn any exception of the body
    into a one-entry error list. *)
Lemma tavily_search_handles (r : Res PyVal) :
  let handled :=
    try_except r
      [(TavilySearchError,
        fun e => inr (Server.error_list ("Search failed: " ++ exc_msg e)));
       (ValueError,
        fun e => inr (Server.error_list ("Configuration error: " ++ exc_msg e)));
       (Exception,
        fun e => inr (Server.error_list ("Unexpected error: " ++ exc_msg e)))] in
  match r with
  | inr v => handled = inr v
  | inl e =>
      handled
      = inr (Server.error_list
               ((if issubclass_exc (exc_class e) TavilySearchError
                 then "Search failed: "
                 else if issubclass_exc (exc_class e) ValueError
                      then "Configuration error: "
                      else "Unexpected error: ") ++ exc_msg e))
  end.
Proof.
  destruct r as [e|v]; [|reflexivity].
  cbv zeta. cbn [try_except].
  destruct (issubclass_exc (exc_class e) TavilySearchError); [reflexivity|].
  destruct (issubclass_exc (exc_class e) ValueError); reflexivity.
Qed.

(** What the body returns without raising is a list. *)
Lemma tavily_search_body_list query max_results search_depth v :
  value (Server.tavily_search_body rt w query max_results search_depth) = inr v ->
  exists items, v = PyList items.
Proof.
  unfold Server.tavily_search_body.
  destruct query;
    try (intros H; inversion H; eexists; reflexivity).
  destruct (String.eqb (strip s) EmptyString);
    [intros H; inversion H; eexists; reflexivity|].
  destruct (py_int rt max_results); [discriminate|].
  destruct (Server.get_tavily_client w); [discriminate|].
  unfold value, bind. cbn [fst ret].
  destruct (fst (Server.search w s0 s _ _)); [discriminate|]. cbn [res_bind].
  destruct (Server.format_results (PyStr s) p); [discriminate|].
  intros H; inversion H; eexists; reflexivity.
Qed.

Lemma search_value key q n d :
  String.eqb (strip q) EmptyString = false ->
  forall url payload outcome,
    In (Server.Post url payload outcome) (trace (Server.search w key q n d)) ->
    value (Server.search w key q n d)
    = match outcome with
      | Server.Returned body => inr (py_of_json body)
      | Server.HTTPStatusError status_code response_text =>
          inl (mkExc TavilySearchError
                 ("Search request failed: " ++ "HTTP " ++ string_of_Z status_code
                  ++ ": " ++ response_text))
      | Server.RequestError msg =>
          inl (mkExc TavilySearchError ("Network error: " ++ msg))
      | Server.OtherError e =>
          inl (mkExc TavilySearchError ("Unexpected error: " ++ exc_msg e))
      end.
Proof.
  intros Hq url payload outcome. rewrite (search_trace w key q n d Hq).
  intros [H|[H|[]]]; [discriminate|]. inversion H; subst; clear H.
  unfold Server.search, value, bind. rewrite Hq. cbn [fst ret emit].
  destruct (Server.post w _ _); reflexivity.
Qed.

(** C10. [tavily_search] never raises: it returns a list on every input.
    Whatever the body returns is returned as it is, and an exception of the
    body becomes the one-entry list [[{"error": ...}]] whose text is the
    exception's message behind "Search failed: ", "Configuration error: "
    or "Unexpected error: ". In particular: a query that is not a string
    or is blank, a missing API key, and each way the HTTP request can
    fail end in such a list. *)
Theorem tavily_search_never_raises query max_results search_depth :
  let result := value (Server.tavily_search rt w query max_results search_depth) in
  (exists items, result = inr (PyList items))
  /\ match value (Server.tavily_search_body rt w query max_results search_depth) with
     | inr v => result = inr v
     | inl e =>
         exists prefix,
           In prefix ["Search failed: "; "Configuration error: "; "Unexpected error: "]
           /\ result = inr (PyList [PyDict [("error", PyStr (prefix ++ exc_msg e))]])
     end
  /\ (is_str query = false \/ (exists q, query = PyStr q /\ strip q = EmptyString) ->
      Server.tavily_search rt w query max_results search_depth
      = (inr (PyList [PyDict [("error",
                PyStr "Query parameter is required and must be a non-empty string")]]),
         []))
  /\ (forall q m,
        query = PyStr q -> strip q <> EmptyString ->
        py_int rt max_results = inr m ->
        (Server.TAVILY_API_KEY w = None
         \/ Server.TAVILY_API_KEY w = Some EmptyString ->
         Server.tavily_search rt w query max_results search_depth
         = (inr (PyList [PyDict [("error",
                   PyStr "Configuration error: TAVILY_API_KEY environment variable is required")]]),
            []))
        /\ (forall url payload outcome,
              In (Server.Post url payload outcome)
                 (trace (Server.tavily_search rt w query max_results search_depth)) ->
              match outcome with
              | Server.HTTPStatusError status_code response_text =>
                  result = inr (PyList [PyDict [("error",
                    PyStr ("Search failed: Search request failed: HTTP "
                           ++ string_of_Z status_code ++ ": " ++ response_text))]])
              | Server.RequestError msg =>
                  result = inr (PyList [PyDict [("error",
                    PyStr ("Search failed: Network error: " ++ msg))]])
              | Server.OtherError e =>
                  result = inr (PyList [PyDict [("error",
                    PyStr ("Search failed: Unexpected error: " ++ exc_msg e))]])
              | Server.Returned body =>
                  match Server.format_results query (py_of_json body) with
                  | inr formatted_results => result = inr (PyList formatted_results)
                  | inl e =>
                      exists prefix,
                        result = inr (PyList [PyDict [("error",
                                   PyStr (prefix ++ exc_msg e))]])
                  end
              end)).
Proof.
  cbv zeta. rewrite tavily_search_value.
  pose proof (tavily_search_handles
                (value (Server.tavily_search_body rt w query max_results search_depth)))
    as Hh. cbv zeta in Hh.
  split; [|split; [|split]].
  - destruct (value (Server.tavily_search_body rt w query max_results search_depth))
      as [e|v] eqn:Hb.
    + rewrite Hh. eexists; reflexivity.
    + rewrite Hh. destruct (tavily_search_body_list _ _ _ _ Hb) as [items ->].
      eexists; reflexivity.
  - destruct (value (Server.tavily_search_body rt w query max_results search_depth))
      as [e|v]; [|assumption].
    rewrite Hh. eexists. split; [|reflexivity].
    destruct (issubclass_exc (exc_class e) TavilySearchError); [now left|].
    destruct (issubclass_exc (exc_class e) ValueError); [right; now left|].
    right; right; now left.
  - intros [Hns | (q & -> & Hq)].
    + unfold Server.tavily_search, Server.tavily_search_body.
      destruct query; try reflexivity. discriminate.
    + unfold Server.tavily_search, Server.tavily_search_body.
      rewrite Hq. reflexivity.
  - intros q m -> Hq Hm.
    assert (Hq' : String.eqb (strip q) EmptyString = false)
      by now apply String.eqb_neq.
    split.
    + intros Hkey.
      assert (Hc : Server.get_tavily_client w
                   = inl (mkExc ValueError "TAVILY_API_KEY environment variable is required")).
      { unfold Server.get_tavily_client. destruct Hkey as [-> | ->]; reflexivity. }
      unfold Server.tavily_search, Server.tavily_search_body.
      rewrite Hq', Hm, Hc. reflexivity.
    + intros url payload outcome Hin.
      destruct (tavily_search_events rt w _ _ _ _ Hin)
        as (q0 & m0 & key & Hq0 & Hm0 & Hkey & Hin' & _).
      inversion Hq0; subst q0; clear Hq0.
      rewrite Hm in Hm0. inversion Hm0; subst m0; clear Hm0.
      pose proof (search_value key q _ _ Hq' _ _ _ Hin') as Hv.
      assert (Hb : value (Server.tavily_search_body rt w (PyStr q) max_results
                                                    search_depth)
                   = res_bind (value (Server.search w key q (Server.clamp_max_results m)
                                        (Server.checked_search_depth search_depth)))
                       (fun results =>
                        res_bind (Server.format_results (PyStr q) results)
                          (fun formatted_results => inr (PyList formatted_results)))).
      { now rewrite (tavily_search_body_searches rt w q max_results search_depth
                       m key Hq' Hm Hkey). }
      rewrite Hb, Hv in *.
      destruct outcome; cbn [res_bind] in *; try exact Hh.
      destruct (Server.format_results (PyStr q) (py_of_json body));
        cbn [res_bind] in *; [|exact Hh].
      eexists. exact Hh.
Qed.

End ServerClaims.

Section SearchBoundary.
Import Py Tr.
Variable rt : Runtime.
Variable server : Server.World.
Variable client : App.World.

#[local] Opaque String.append String.concat.

(** C9. Whenever the search tool performs a search, the limit it passes on
    is the given one clamped into [1, 20] (below 1 becomes 1, above 20
    becomes 20) and the depth is the given one if it is "basic" or
    "advanced" and "basic" otherwise; the request posted to the provider
    carries these values. The pipeline of app.py does none of this: every
    tool call it makes carries the name and the arguments exactly as parsed
    from the oracle's selection. *)
Theorem search_limits_enforced_by_the_tool
        (query max_results search_depth : PyVal) (user_query : string) :
  (forall q n d,
      In (Server.Search q n d)
         (trace (Server.tavily_search rt server query max_results search_depth)) ->
      exists m,
        py_int rt max_results = inr m
        /\ n = Z.max 1 (Z.min m 20) /\ (1 <= n <= 20)%Z
        /\ ((m < 1)%Z -> n = 1%Z) /\ ((20 < m)%Z -> n = 20%Z)
        /\ d = (if py_in_strs search_depth ["basic"; "advanced"]
                then search_depth else PyStr "basic")
        /\ (d = PyStr "basic" \/ d = PyStr "advanced"))
  /\ (forall url payload outcome,
        In (Server.Post url payload outcome)
           (trace (Server.tavily_search rt server query max_results search_depth)) ->
        exists n d,
          py_getitem payload "max_results" = inr (PyInt n) /\ (1 <= n <= 20)%Z
          /\ py_getitem payload "search_depth" = inr d
          /\ (d = PyStr "basic" \/ d = PyStr "advanced"))
  /\ (forall tool_name tool_arguments outcome,
        In (App.CallTool tool_name tool_arguments outcome)
           (trace (App.process_user_query rt client user_query)) ->
        exists user_prompt completion s,
          In (App.ChatCompletion App.system_prompt_tool_selection user_prompt completion)
             (trace (App.process_user_query rt client user_query))
          /\ App.completion_text completion = inr s
          /\ App.tool_choice rt s = inr (tool_name, tool_arguments)
          /\ outcome = App.call_tool client tool_name tool_arguments).
Proof.
  split; [|split].
  - intros q n d Hin.
    destruct (tavily_search_events rt server _ _ _ _ Hin)
      as (q0 & m & key & -> & Hm & Hkey & Hin' & Hq).
    rewrite (search_trace server key q0 _ _ Hq) in Hin'.
    destruct Hin' as [H|[H|[]]]; [|discriminate].
    inversion H; subst; clear H.
    exists m. pose proof (clamp_cases m) as Hc. cbv zeta in Hc.
    repeat split; try tauto.
    + unfold Server.checked_search_depth.
      destruct (py_in_strs search_depth ["basic"; "advanced"]); reflexivity.
    + apply checked_search_depth_cases.
  - intros url payload outcome Hin.
    destruct (tavily_search_events rt server _ _ _ _ Hin)
      as (q0 & m & key & -> & Hm & Hkey & Hin' & Hq).
    rewrite (search_trace server key q0 _ _ Hq) in Hin'.
    destruct Hin' as [H|[H|[]]]; [discriminate|].
    inversion H; subst; clear H.
    exists (Server.clamp_max_results m), (Server.checked_search_depth search_depth).
    repeat split; try apply clamp_bounds.
    apply checked_search_depth_cases.
  - intros n a o Hin.
    destruct (call_tool_event rt client user_query _ _ _ Hin)
      as (u & c & s & H1 & H2 & H3 & H4 & _).
    eauto 10.
Qed.

End SearchBoundary.

(* ===================================================================== *)
(** ** The claims on the scenarios of section 8 *)
(* ===================================================================== *)

Section Scenarios.
Import Py Tr App Doubles MoreDoubles.

(** The cases of the normalization and a whole tool call. *)
Lemma tool_output_normalized_witness :
  tool_output_for_llm runtime []
  = inr "Tool executed successfully but returned no content."
  /\ tool_output_for_llm runtime [text_item "AI news summary..."; image_item "abc"]
     = inr "AI news summary..."
  /\ tool_output_for_llm runtime [image_item "abc"; text_item "ignored"]
     = inr "[Binary data received, type: <class 'bytes'>]"
  /\ tool_output_for_llm runtime [mcp_image "image/png" "aGVsbG8="]
     = inr "[Binary data received, type: <class 'str'>]"
  /\ binary_placeholder (PyStr "d29ybGQ=") = binary_placeholder (PyStr "aGVsbG8=")
  /\ (exists out,
        tool_output_for_llm runtime [plain_item "first"; text_item "second"] = inr out
        /\ json_dumps runtime
             (PyList [PyStr "first";
                      PyDict [("type", PyStr "text"); ("text", PyStr "second")]])
           = inr out)
  /\ value (call_mcp_tool runtime scenario_B (PyStr "tavily_search")
                          (py_of_json search_arguments))
     = inr (inr "AI news summary...").
Proof.
  split; [|split; [|split; [|split; [|split; [|split]]]]].
  - exact (proj1 (tool_output_normalized runtime scenario_B []) eq_refl).
  - exact (proj1 (proj2 (tool_output_normalized runtime scenario_B _))
                 (text_item "AI news summary...") [image_item "abc"]
                 "AI news summary..." eq_refl eq_refl).
  - exact (proj1 (proj1 (proj2 (proj2 (tool_output_normalized runtime scenario_B _)))
                        (image_item "abc") [text_item "ignored"] (PyBytes "abc")
                        eq_refl eq_refl eq_refl)).
  - exact (proj1 (proj1 (proj2 (proj2 (tool_output_normalized runtime scenario_B _)))
                        (mcp_image "image/png" "aGVsbG8=") [] (PyStr "aGVsbG8=")
                        eq_refl eq_refl eq_refl)).
  - exact (proj2 (proj1 (proj2 (proj2 (tool_output_normalized runtime scenario_B _)))
                        (mcp_image "image/png" "aGVsbG8=") [] (PyStr "aGVsbG8=")
                        eq_refl eq_refl eq_refl)
                 (PyStr "d29ybGQ=") eq_refl eq_refl).
  - exact (proj1 (proj2 (proj2 (proj2 (proj2
             (tool_output_normalized runtime scenario_B _)))))
             (plain_item "first") [text_item "second"] eq_refl eq_refl eq_refl eq_refl).
  - exact (proj2 (proj2 (proj2 (proj2 (proj2
             (tool_output_normalized runtime scenario_B [text_item "AI news summary..."])))))
             (PyStr "tavily_search") (py_of_json search_arguments)
             "AI news summary..." eq_refl eq_refl eq_refl).
Defined.

(** C1 as stated fails twice. The placeholder of an image names the class
    of its [data] value, here [str], and is the same text for a PNG and a
    JPEG: the declared media type is not in it. And a tool call that succeeds
    with an embedded resource has no normalized string at all: the views do
    not serialize, and the turn answers with the tool-error message. *)
Lemma tool_output_not_as_claimed :
  tool_output_for_llm runtime [mcp_image "image/png" "aGVsbG8="]
  = inr "[Binary data received, type: <class 'str'>]"
  /\ tool_output_for_llm runtime [mcp_image "image/jpeg" "aGVsbG8="]
     = inr "[Binary data received, type: <class 'str'>]"
  /\ occurs "image/png" "[Binary data received, type: <class 'str'>]" = false
  /\ occurs "png" "[Binary data received, type: <class 'str'>]" = false
  /\ In (CallTool (PyStr "tavily_search") (py_of_json search_arguments)
                  (inr [mcp_resource]))
        (trace (process_user_query runtime scenario_resource "read the file"))
  /\ tool_output_for_llm runtime [mcp_resource]
     = inl (mkExc TypeError
              "Object of type TextResourceContents is not JSON serializable")
  /\ value (process_user_query runtime scenario_resource "read the file")
     = inr (Some "Error executing tool 'tavily_search' on MCP server: Object of type TextResourceContents is not JSON serializable").
Proof.
  repeat (split; [vm_compute; reflexivity|]).
  split; [find_event|].
  split; vm_compute; reflexivity.
Qed.

(** Scenario D. *)
Lemma tool_failure_is_the_answer_witness :
  In (CallTool (PyStr "tavily_search") (py_of_json search_arguments) (inl boom))
     (trace (process_user_query runtime scenario_D "search for recent AI news"))
  /\ exists user_prompt completion,
      process_user_query runtime scenario_D "search for recent AI news"
      = (inr (Some "Error executing tool 'tavily_search' on MCP server: boom"),
         [ListTools (inr [search_tool]);
          ChatCompletion system_prompt_tool_selection user_prompt completion;
          CallTool (PyStr "tavily_search") (py_of_json search_arguments) (inl boom)])
      /\ forall n, PyStr "tavily_search" = PyStr n
                   -> fmt runtime (PyStr "tavily_search") = n.
Proof.
  assert (Hin : In (CallTool (PyStr "tavily_search") (py_of_json search_arguments)
                             (inl boom))
                   (trace (process_user_query runtime scenario_D
                                              "search for recent AI news")))
    by find_event.
  split; [exact Hin|].
  exact (tool_failure_is_the_answer runtime scenario_D _ _ _ _ Hin).
Defined.

(** C2 as stated fails on scenario D: the answer is the same string for two
    selections that differ in their arguments, and no part of the arguments
    occurs in it. *)
Lemma tool_error_omits_arguments :
  exists answer,
    In (CallTool (PyStr "tavily_search") (py_of_json search_arguments) (inl boom))
       (trace (process_user_query runtime scenario_D "find something"))
    /\ In (CallTool (PyStr "tavily_search") (py_of_json greedy_arguments) (inl boom))
          (trace (process_user_query runtime scenario_D_greedy "find something"))
    /\ py_of_json search_arguments <> py_of_json greedy_arguments
    /\ value (process_user_query runtime scenario_D "find something")
       = inr (Some answer)
    /\ value (process_user_query runtime scenario_D_greedy "find something")
       = inr (Some answer)
    /\ answer = "Error executing tool 'tavily_search' on MCP server: boom"
    /\ occurs "recent AI news" answer = false
    /\ occurs "cats" answer = false
    /\ occurs "max_results" answer = false
    /\ occurs "query" answer = false.
Proof.
  exists "Error executing tool 'tavily_search' on MCP server: boom".
  split; [find_event|]. split; [find_event|].
  split; [intro H; vm_compute in H; discriminate H|].
  repeat split; vm_compute; reflexivity.
Qed.

(** Scenario A, and a listing that raises. *)
Lemma catalog_unavailable_witness :
  (process_user_query runtime scenario_A "What is the capital of France?"
   = (inr (Some "Error: Could not retrieve tools from the MCP server."),
      [ListTools (inr [])]))
  /\ (process_user_query runtime scenario_listing_fails "What is the capital of France?"
      = (inr (Some "Error: Could not retrieve tools from the MCP server."),
         [ListTools (inl (mkExc (OtherException "ConnectionError") "connection lost"))])).
Proof.
  split.
  - exact (proj1 (proj2 (catalog_unavailable runtime scenario_A
                           "What is the capital of France?"
                           (or_intror eq_refl)))).
  - exact (proj1 (proj2 (catalog_unavailable runtime scenario_listing_fails
                           "What is the capital of France?"
                           (or_introl (ex_intro _ _ eq_refl))))).
Defined.

(** The oracle answers in prose. *)
Lemma invalid_json_selection_witness :
  exists user_prompt,
    In (ChatCompletion system_prompt_tool_selection user_prompt
                       (inr (Some "I would use the search tool.")))
       (trace (process_user_query runtime scenario_prose "any news?"))
    /\ process_user_query runtime scenario_prose "any news?"
       = (inr (Some ("Error: LLM did not provide a valid JSON response for tool selection. LLM response:"
                     ++ nl ++ "I would use the search tool.")),
          [ListTools (inr [search_tool]);
           ChatCompletion system_prompt_tool_selection user_prompt
                          (inr (Some "I would use the search tool."))])
    /\ forallb (fun ev => negb (is_call_tool ev))
               (trace (process_user_query runtime scenario_prose "any news?")) = true.
Proof.
  eexists.
  assert (Hin : In (ChatCompletion system_prompt_tool_selection _
                                   (inr (Some "I would use the search tool.")))
                   (trace (process_user_query runtime scenario_prose "any news?")))
    by find_event.
  split; [exact Hin|].
  exact (invalid_json_selection runtime scenario_prose "any news?" _ _
           "I would use the search tool."
           (mkExc JSONDecodeError "Expecting value: line 1 column 1 (char 0)")
           Hin eq_refl eq_refl eq_refl).
Defined.

(** Scenario C. *)
Lemma malformed_arguments_witness :
  exists user_prompt,
    In (ChatCompletion system_prompt_tool_selection user_prompt
                       (inr (Some selection_malformed_text)))
       (trace (process_user_query runtime scenario_C "do x"))
    /\ tool_choice runtime (Some selection_malformed_text)
       = inr (PyStr "x", PyStr "not-an-object")
    /\ process_user_query runtime scenario_C "do x"
       = (inr (Some "Error: LLM provided arguments in an incorrect format for tool 'x'. Expected a dictionary, got <class 'str'>."),
          [ListTools (inr [search_tool]);
           ChatCompletion system_prompt_tool_selection user_prompt
                          (inr (Some selection_malformed_text))])
    /\ forallb (fun ev => negb (is_call_tool ev))
               (trace (process_user_query runtime scenario_C "do x")) = true.
Proof.
  eexists.
  assert (Hin : In (ChatCompletion system_prompt_tool_selection _
                                   (inr (Some selection_malformed_text)))
                   (trace (process_user_query runtime scenario_C "do x")))
    by find_event.
  split; [exact Hin|]. split; [reflexivity|].
  refine (malformed_arguments runtime scenario_C "do x" _ _
            (Some selection_malformed_text) "x" (PyStr "not-an-object")
            Hin eq_refl eq_refl _ eq_refl).
  discriminate.
Defined.

(** The oracle selects no tool. *)
Lemma no_tool_selected_witness :
  exists user_prompt,
    In (ChatCompletion system_prompt_tool_selection user_prompt
                       (inr (Some selection_null_text)))
       (trace (process_user_query runtime scenario_no_tool
                                  "What is the capital of France?"))
    /\ tool_choice runtime (Some selection_null_text) = inr (PyNone, PyDict [])
    /\ exists general_response,
        completion_text (inr (Some "Paris is the capital of France."))
        = inr general_response
        /\ process_user_query runtime scenario_no_tool "What is the capital of France?"
           = (inr (Some ("(No specific tool was used by the LLM for your query)" ++ nl
                         ++ "LLM: " ++ fmt_optional general_response)),
              [ListTools (inr [search_tool]);
               ChatCompletion system_prompt_tool_selection user_prompt
                              (inr (Some selection_null_text));
               ChatCompletion "You are a helpful AI assistant."
                              (general_answer_prompt "What is the capital of France?")
                              (inr (Some "Paris is the capital of France."))])
        /\ forallb (fun ev => negb (is_call_tool ev))
                   (trace (process_user_query runtime scenario_no_tool
                                              "What is the capital of France?")) = true
        /\ truthy PyNone = false /\ truthy (PyStr EmptyString) = false.
Proof.
  eexists.
  assert (Hin : In (ChatCompletion system_prompt_tool_selection _
                                   (inr (Some selection_null_text)))
                   (trace (process_user_query runtime scenario_no_tool
                                              "What is the capital of France?")))
    by find_event.
  split; [exact Hin|]. split; [reflexivity|].
  exact (no_tool_selected runtime scenario_no_tool "What is the capital of France?"
           _ _ (Some selection_null_text) PyNone (PyDict [])
           Hin eq_refl eq_refl eq_refl).
Defined.

(** C7 as stated fails on a tool whose [inputSchema] is a string and
    whose "parameters" is an object: the chain of section 4.1 gives the
    object, the code gives the empty object. *)
Lemma schema_chain_stops_at_inputSchema :
  parameter_schema_for_llm runtime odd_tool = inr (PyDict [])
  /\ Spec.spec_parameter_schema odd_tool = inr (PyDict [("type", PyStr "object")])
  /\ parameter_schema_for_llm runtime odd_tool <> Spec.spec_parameter_schema odd_tool.
Proof.
  split; [reflexivity|]. split; [reflexivity|].
  intro H. vm_compute in H. discriminate H.
Qed.

(** The search tool, the odd tool and a tool with neither attribute. *)
Lemma parameter_schema_chain_witness :
  parameter_schema_for_llm runtime search_tool
  = Spec.spec_parameter_schema search_tool
  /\ parameter_schema_for_llm runtime search_tool
     = inr (PyDict [("type", PyStr "object"); ("required", PyList [PyStr "query"])])
  /\ parameter_schema_for_llm runtime odd_tool = inr (PyDict [])
  /\ parameter_schema_for_llm runtime bare_tool = inr (PyDict [])
  /\ tools_data runtime [bare_tool; bare_tool]
     = inr (map (fun t => PyDict [("name", PyStr (name t));
                                  ("description", description t);
                                  ("parameters_schema", PyDict [])])
                [bare_tool; bare_tool]).
Proof.
  split; [|split; [|split; [|split]]].
  - refine (proj1 (parameter_schema_chain runtime search_tool) _).
    right; right. eexists. split; reflexivity.
  - exact (proj1 (proj2 (parameter_schema_chain runtime search_tool))
                 _ eq_refl eq_refl).
  - refine (proj1 (proj2 (proj2 (parameter_schema_chain runtime odd_tool)))
                  (PyStr "object") eq_refl _ eq_refl).
    discriminate.
  - exact (proj2 (proj2 (proj1 (proj2 (proj2 (proj2
             (parameter_schema_chain runtime bare_tool))))
             (or_introl eq_refl))) eq_refl).
  - refine (proj2 (proj2 (proj2 (proj2 (parameter_schema_chain runtime bare_tool))))
                  [bare_tool; bare_tool] _).
    repeat constructor.
Defined.

(** C8 as stated fails on a completion whose content is [None], which the
    oracle's client allows (a refusal, a completion cut by a filter): the
    narration returns [None], not a string, and the turn answers [None]. *)
Lemma narration_can_return_None :
  chat_completions_create scenario_silent system_prompt_summarize
    (user_prompt_summarize runtime "search for recent AI news"
       (PyStr "tavily_search")
       ("{" ++ quoted "query" ++ ": " ++ quoted "recent AI news" ++ "}")
       "AI news summary...")
  = inr None
  /\ value (summarize runtime scenario_silent "search for recent AI news"
                      (PyStr "tavily_search") (py_of_json search_arguments)
                      "AI news summary...")
     = inr None
  /\ value (process_user_query runtime scenario_silent "search for recent AI news")
     = inr None
  /\ (forall text : string,
        value (process_user_query runtime scenario_silent
                                  "search for recent AI news")
        <> inr (Some text)).
Proof.
  split; [reflexivity|]. split; [vm_compute; reflexivity|].
  split; [vm_compute; reflexivity|].
  intros text H. vm_compute in H. discriminate H.
Qed.

(** Scenario B, a turn whose narration call fails, a narration without
    content, and the no-tool answer to a completion without content. *)
Lemma narration_never_raises_witness :
  (exists arguments_json,
      json_dumps runtime (py_of_json search_arguments) = inr arguments_json
      /\ summarize runtime scenario_B "search for recent AI news"
                   (PyStr "tavily_search") (py_of_json search_arguments)
                   "AI news summary..."
         = (inr (Some "Here is a summary of recent AI news."),
            [ChatCompletion system_prompt_summarize
               (user_prompt_summarize runtime "search for recent AI news"
                  (PyStr "tavily_search") arguments_json "AI news summary...")
               (inr (Some "Here is a summary of recent AI news."))]))
  /\ (exists arguments_json,
        json_dumps runtime (py_of_json greedy_arguments) = inr arguments_json
        /\ summarize runtime scenario_greedy "cats" (PyStr "tavily_search")
                     (py_of_json greedy_arguments) "cats everywhere"
           = (inr (Some "Error: Could not contact OpenAI - Connection error."),
              [ChatCompletion system_prompt_summarize
                 (user_prompt_summarize runtime "cats" (PyStr "tavily_search")
                    arguments_json "cats everywhere")
                 (inl unreachable)]))
  /\ (exists arguments_json,
        json_dumps runtime (py_of_json search_arguments) = inr arguments_json
        /\ summarize runtime scenario_silent "search for recent AI news"
                     (PyStr "tavily_search") (py_of_json search_arguments)
                     "AI news summary..."
           = (inr None,
              [ChatCompletion system_prompt_summarize
                 (user_prompt_summarize runtime "search for recent AI news"
                    (PyStr "tavily_search") arguments_json "AI news summary...")
                 (inr None)]))
  /\ answer_without_tool scenario_no_tool_silent "What is the capital of France?"
     = (inr (Some ("(No specific tool was used by the LLM for your query)" ++ nl
                   ++ "LLM: " ++ "None")),
        [ChatCompletion "You are a helpful AI assistant."
                        (general_answer_prompt "What is the capital of France?")
                        (inr None)])
  /\ is_json (py_of_json greedy_arguments) = true
  /\ exists answer,
      value (process_user_query runtime scenario_greedy "cats") = inr answer.
Proof.
  split; [|split; [|split; [|split; [|split]]]].
  - exact (proj1 (narration_never_raises runtime scenario_B
                    "search for recent AI news")
                 (PyStr "tavily_search") (py_of_json search_arguments)
                 "AI news summary..." eq_refl).
  - exact (proj1 (narration_never_raises runtime scenario_greedy "cats")
                 (PyStr "tavily_search") (py_of_json greedy_arguments)
                 "cats everywhere" eq_refl).
  - exact (proj1 (narration_never_raises runtime scenario_silent
                    "search for recent AI news")
                 (PyStr "tavily_search") (py_of_json search_arguments)
                 "AI news summary..." eq_refl).
  - exact (proj1 (proj2 (narration_never_raises runtime scenario_no_tool_silent
                           "What is the capital of France?"))).
  - exact (proj1 (proj2 (proj2 (narration_never_raises runtime scenario_greedy "cats")))
                 (Some selection_greedy_text) (PyStr "tavily_search")
                 (py_of_json greedy_arguments) eq_refl).
  - refine (proj2 (proj2 (proj2 (narration_never_raises runtime scenario_greedy "cats")))
                  system_prompt_tool_selection _ (inr (Some selection_greedy_text)) _).
    find_event.
Defined.

(** The tool is asked for 50 results at depth "deep": it searches for 20 at
    depth "basic"; the pipeline had passed 50 and "deep" on as they were. *)
Lemma search_limits_enforced_by_the_tool_witness :
  In (Server.Search "cats" 20 (PyStr "basic"))
     (trace (Server.tavily_search runtime provider_ok
                                  (PyStr "cats") (PyInt 50) (PyStr "deep")))
  /\ (exists m,
        py_int runtime (PyInt 50) = inr m
        /\ 20%Z = Z.max 1 (Z.min m 20) /\ (1 <= 20 <= 20)%Z
        /\ ((m < 1)%Z -> 20%Z = 1%Z) /\ ((20 < m)%Z -> 20%Z = 20%Z)
        /\ PyStr "basic" = (if py_in_strs (PyStr "deep") ["basic"; "advanced"]
                            then PyStr "deep" else PyStr "basic")
        /\ (PyStr "basic" = PyStr "basic" \/ PyStr "basic" = PyStr "advanced"))
  /\ In (CallTool (PyStr "tavily_search") (py_of_json greedy_arguments)
                  (inr [text_item "cats everywhere"]))
        (trace (process_user_query runtime scenario_greedy "cats"))
  /\ exists user_prompt completion s,
      In (ChatCompletion system_prompt_tool_selection user_prompt completion)
         (trace (process_user_query runtime scenario_greedy "cats"))
      /\ completion_text completion = inr s
      /\ tool_choice runtime s
         = inr (PyStr "tavily_search", py_of_json greedy_arguments)
      /\ inr [text_item "cats everywhere"]
         = call_tool scenario_greedy (PyStr "tavily_search")
                     (py_of_json greedy_arguments).
Proof.
  assert (Hs : In (Server.Search "cats" 20 (PyStr "basic"))
                  (trace (Server.tavily_search runtime provider_ok
                            (PyStr "cats") (PyInt 50) (PyStr "deep"))))
    by find_event.
  assert (Hc : In (CallTool (PyStr "tavily_search") (py_of_json greedy_arguments)
                            (inr [text_item "cats everywhere"]))
                  (trace (process_user_query runtime scenario_greedy "cats")))
    by find_event.
  split; [exact Hs|]. split; [|split; [exact Hc|]].
  - exact (proj1 (search_limits_enforced_by_the_tool runtime provider_ok scenario_greedy
                    (PyStr "cats") (PyInt 50) (PyStr "deep") "cats")
                 _ _ _ Hs).
  - exact (proj2 (proj2 (search_limits_enforced_by_the_tool runtime provider_ok
                           scenario_greedy (PyStr "cats") (PyInt 50) (PyStr "deep")
                           "cats"))
                 _ _ _ Hc).
Defined.

(** A query that is not a string, a blank query, a missing key and a
    provider that answers 503. *)
Lemma tavily_search_never_raises_witness :
  Server.tavily_search runtime provider_ok (PyInt 7) (PyInt 5) (PyStr "basic")
  = (inr (PyList [PyDict [("error",
            PyStr "Query parameter is required and must be a non-empty string")]]),
     [])
  /\ Server.tavily_search runtime provider_ok (PyStr "   ") (PyInt 5) (PyStr "basic")
     = (inr (PyList [PyDict [("error",
               PyStr "Query parameter is required and must be a non-empty string")]]),
        [])
  /\ Server.tavily_search runtime provider_no_key (PyStr "cats") (PyInt 5) (PyStr "basic")
     = (inr (PyList [PyDict [("error",
               PyStr "Configuration error: TAVILY_API_KEY environment variable is required")]]),
        [])
  /\ value (Server.tavily_search runtime provider_down
                                 (PyStr "cats") (PyInt 5) (PyStr "basic"))
     = inr (PyList [PyDict [("error",
              PyStr ("Search failed: Search request failed: HTTP "
                     ++ string_of_Z 503 ++ ": " ++ "Service Unavailable"))]])
  /\ exists items,
      value (Server.tavily_search runtime provider_ok
                                  (PyStr "cats") (PyNone) (PyStr "basic"))
      = inr (PyList items).
Proof.
  split; [|split; [|split; [|split]]].
  - exact (proj1 (proj2 (proj2 (tavily_search_never_raises runtime provider_ok
                                  (PyInt 7) (PyInt 5) (PyStr "basic"))))
                 (or_introl eq_refl)).
  - exact (proj1 (proj2 (proj2 (tavily_search_never_raises runtime provider_ok
                                  (PyStr "   ") (PyInt 5) (PyStr "basic"))))
                 (or_intror (ex_intro _ "   " (conj eq_refl eq_refl)))).
  - refine (proj1 (proj2 (proj2 (proj2 (tavily_search_never_raises runtime provider_no_key
                                          (PyStr "cats") (PyInt 5) (PyStr "basic"))))
                         "cats" 5%Z eq_refl _ eq_refl)
                  (or_introl eq_refl)).
    discriminate.
  - refine (proj2 (proj2 (proj2 (proj2 (tavily_search_never_raises runtime provider_down
                                          (PyStr "cats") (PyInt 5) (PyStr "basic"))))
                         "cats" 5%Z eq_refl _ eq_refl)
                  _ _ (Server.HTTPStatusError 503 "Service Unavailable") _).
    + discriminate.
    + find_event.
  - exact (proj1 (tavily_search_never_raises runtime provider_ok
                    (PyStr "cats") PyNone (PyStr "basic"))).
Defined.

(** Scenario B, end to end: the search tool is selected, called once with
    the selected arguments, and its text is narrated. *)
Example scenario_B_answer :
  value (process_user_query runtime scenario_B "search for recent AI news")
  = inr (Some "Here is a summary of recent AI news.")
  /\ map is_call_tool
         (trace (process_user_query runtime scenario_B "search for recent AI news"))
     = [false; false; true; false].
Proof. split; vm_compute; reflexivity. Qed.

(** The serializer on small values, compact and indented. *)
Example json_dumps_compact :
  json_dumps runtime (PyDict [("query", PyStr "cats"); ("max_results", PyInt 50)])
  = inr ("{" ++ quoted "query" ++ ": " ++ quoted "cats" ++ ", "
         ++ quoted "max_results" ++ ": 50}").
Proof. vm_compute. reflexivity. Qed.

Example json_dumps_indented :
  json_dumps_indent2 runtime (PyList [PyDict [("name", PyStr "bare")]; PyList []])
  = inr ("[" ++ nl ++ "  {" ++ nl ++ "    " ++ quoted "name" ++ ": " ++ quoted "bare"
         ++ nl ++ "  }," ++ nl ++ "  []" ++ nl ++ "]").
Proof. vm_compute. reflexivity. Qed.

(** A content item whose view holds an object that is not JSON ends the turn
    with the tool-error message. *)
Example unserializable_view :
  tool_output_for_llm runtime
    [{| text := None; data := None;
        obj_dict := Some [("resource", PyObject "mcp.types" "TextResourceContents")];
        obj_str := "resource" |}]
  = inl (mkExc TypeError "Object of type TextResourceContents is not JSON serializable").
Proof. reflexivity. Qed.

(** The search tool on a good day. *)
Example tavily_search_formats :
  value (Server.tavily_search runtime provider_ok (PyStr " cats ") (PyInt 3) (PyStr "advanced"))
  = inr (PyList [PyDict [("type", PyStr "answer");
                         ("content", PyStr "Cats are popular.");
                         ("query", PyStr " cats ")];
                 PyDict [("type", PyStr "result"); ("title", PyStr "Cats");
                         ("url", PyStr "https://cats.example");
                         ("content", PyStr "All about cats");
                         ("score", PyFloat 0%float)]])
  /\ map (fun ev => match ev with
                    | Server.Search q n d => Some (q, n, d)
                    | Server.Post _ _ _ => None
                    end)
         (trace (Server.tavily_search runtime provider_ok
                                      (PyStr " cats ") (PyInt 3) (PyStr "advanced")))
     = [Some (" cats ", 3%Z, PyStr "advanced"); None].
Proof. split; vm_compute; reflexivity. Qed.

End Scenarios.

(* ===================================================================== *)
(** ** Further properties of the pipeline of app.py *)
(* ===================================================================== *)

Section AppMore.
Import Py Tr App Shape.
Variable rt : Runtime.
Variable w : World.

#[local] Opaque String.append String.concat.

Lemma general_prompt_not_selection_b :
  String.eqb "You are a helpful AI assistant." system_prompt_tool_selection = false.
Proof. apply String.eqb_neq, general_prompt_is_not_selection. Qed.

Lemma summarize_prompt_not_selection_b :
  String.eqb system_prompt_summarize system_prompt_tool_selection = false.
Proof. apply String.eqb_neq, summarize_prompt_is_not_selection. Qed.

(** What can follow the selection call in the log. *)
Lemma act_on_reply_shapes q reply :
  let t := trace (act_on_reply rt w q reply) in
  t = []
  \/ (exists u o, t = [ChatCompletion "You are a helpful AI assistant." u o])
  \/ (exists n a o, t = [CallTool n a o])
  \/ (exists n a o u o', t = [CallTool n a o;
                              ChatCompletion system_prompt_summarize u o']).
Proof.
  cbv zeta. destruct reply as [e|s]; [left; reflexivity|].
  destruct (tool_choice rt s) as [e|[n a]] eqn:Hc.
  - left. unfold act_on_reply, parse_tool_choice. cbn [res_bind]. rewrite Hc.
    cbn [res_bind try_except].
    destruct (issubclass_exc (exc_class e) JSONDecodeError); reflexivity.
  - rewrite (act_on_reply_selected rt w q s n a Hc).
    destruct (truthy n) eqn:Ht.
    + rewrite (act_on_choice_tool rt w q _ _ Ht).
      destruct (is_dict a) eqn:Hd.
      * rewrite (call_mcp_tool_dict rt w _ _ Hd). unfold bind, trace. cbn [fst snd].
        destruct (call_tool w n a) as [e|items] eqn:Hcall;
          [right; right; left; do 3 eexists; reflexivity|].
        destruct (tool_output_for_llm rt items) as [e|out];
          [right; right; left; do 3 eexists; reflexivity|].
        destruct (tool_choice_is_json rt s n a Hc) as [_ Hj].
        destruct (json_dumps_total rt _ Hj) as [aj Haj].
        rewrite (summarize_run rt w q n a out aj Haj), ask_openai_run.
        right; right; right. do 5 eexists. reflexivity.
      * rewrite (call_mcp_tool_not_dict rt w _ _ Hd). left; reflexivity.
    + rewrite (act_on_choice_no_tool rt w q _ _ Ht), answer_without_tool_run.
      right; left. do 2 eexists. reflexivity.
Qed.

(** X1. The log of a turn: the tool listing comes first and only once; when
    anything follows, the selection call is next and is the only one with
    the selection prompt; at most one tool call and at most two oracle calls
    are made. *)
Theorem turn_log_shape q :
  exists rest,
    trace (process_user_query rt w q) = ListTools (list_tools w) :: rest
    /\ existsb is_list_tools rest = false
    /\ (List.length (filter is_call_tool rest) <= 1)%nat
    /\ (List.length (filter is_chat_completion rest) <= 2)%nat
    /\ (List.length (filter is_selection rest) <= 1)%nat
    /\ (rest = []
        \/ exists user_prompt completion later,
            rest = ChatCompletion system_prompt_tool_selection user_prompt completion
                     :: later
            /\ existsb is_selection later = false).
Proof.
  destruct (list_mcp_tools_with_schema_returns rt w) as [tools Htools].
  rewrite (process_user_query_run rt w q tools Htools).
  destruct tools as [|t ts].
  { exists []. cbn. repeat split; auto. }
  rewrite select_and_act_run.
  destruct (json_dumps_indent2 rt (PyList (t :: ts))) as [e|tj].
  { exists []. cbn. repeat split; auto. }
  cbv zeta. unfold trace, value. cbn [fst snd].
  eexists. split; [reflexivity|].
  pose proof general_prompt_not_selection_b as Hg.
  pose proof summarize_prompt_not_selection_b as Hs.
  destruct (act_on_reply_shapes q
              (completion_text
                 (chat_completions_create w system_prompt_tool_selection
                    (user_prompt_tool_selection q tj))))
    as [H|[(u & o & H)|[(n & a & o & H)|(n & a & o & u & o' & H)]]];
    cbv zeta in H; unfold trace in H; rewrite H;
    cbn [existsb is_list_tools filter is_call_tool is_chat_completion is_selection
         List.length orb];
    rewrite ?String.eqb_refl, ?Hg, ?Hs; cbn [List.length orb];
    (repeat split; [lia|lia|lia|]);
    right; do 3 eexists; (split; [reflexivity|]);
    cbn [existsb is_selection orb]; rewrite ?Hg, ?Hs; reflexivity.
Qed.

(** X2. The whole path of a tool call that succeeds: the normalized output is
    put into the narration prompt together with the query, the tool name and
    the serialized arguments, and the turn's answer is the narration. *)
Theorem tool_result_is_narrated q tool_name tool_arguments items out :
  In (CallTool tool_name tool_arguments (inr items))
     (trace (process_user_query rt w q)) ->
  tool_output_for_llm rt items = inr out ->
  exists selection_prompt selection arguments_json,
    json_dumps rt tool_arguments = inr arguments_json
    /\ let narration_prompt :=
         user_prompt_summarize rt q tool_name arguments_json out in
       let narration :=
         chat_completions_create w system_prompt_summarize narration_prompt in
       process_user_query rt w q
       = (completion_text narration,
          [ListTools (list_tools w);
           ChatCompletion system_prompt_tool_selection selection_prompt selection;
           CallTool tool_name tool_arguments (inr items);
           ChatCompletion system_prompt_summarize narration_prompt narration]).
Proof.
  intros Hin Hout.
  destruct (call_tool_event rt w q _ _ _ Hin)
    as (u & c & s & Hsel & Hs & Hc & Ho & Ht & Hd).
  destruct (selection_event rt w q u c Hsel) as [_ Hrun].
  destruct (tool_choice_is_json rt s _ _ Hc) as [_ Hj].
  destruct (json_dumps_total rt _ Hj) as [aj Haj].
  exists u, c, aj. split; [assumption|]. cbv zeta.
  rewrite Hrun, Hs, (act_on_reply_selected rt w q s _ _ Hc).
  rewrite (act_on_choice_tool rt w q _ _ Ht), (call_mcp_tool_dict rt w _ _ Hd).
  rewrite <- Ho, Hout. unfold bind, value, trace. cbn [fst snd].
  rewrite (summarize_run rt w q _ _ out aj Haj), ask_openai_run. reflexivity.
Qed.

(** Past the serialization of the catalog a turn does not raise. *)
Lemma select_and_act_returns q tools tools_json :
  json_dumps_indent2 rt (PyList tools) = inr tools_json ->
  exists answer, value (select_and_act rt w q tools) = inr answer.
Proof.
  intros Hd. rewrite select_and_act_run, Hd. cbv zeta.
  unfold value at 1. cbn [fst]. apply act_on_reply_returns.
Qed.

(** X3. [process_user_query] raises in one situation only: the catalog cannot be
    serialized for the selection prompt. The exception is that of
    [json.dumps], and nothing but the tool listing has been called. *)
Theorem turn_raises_only_on_catalog q e :
  value (process_user_query rt w q) = inl e ->
  exists tools,
    value (list_mcp_tools_with_schema rt w) = inr tools
    /\ tools <> []
    /\ json_dumps_indent2 rt (PyList tools) = inl e
    /\ trace (process_user_query rt w q) = [ListTools (list_tools w)].
Proof.
  destruct (list_mcp_tools_with_schema_returns rt w) as [tools Htools].
  rewrite (process_user_query_run rt w q tools Htools).
  destruct tools as [|t ts]; [discriminate|].
  rewrite select_and_act_run.
  destruct (json_dumps_indent2 rt (PyList (t :: ts))) as [e'|tj] eqn:Hd.
  - intros H. inversion H; subst. exists (t :: ts).
    repeat split; auto. discriminate.
  - destruct (select_and_act_returns q (t :: ts) tj Hd) as [a Ha].
    rewrite select_and_act_run, Hd in *. cbv zeta in *.
    unfold value in *. cbn [fst] in *. congruence.
Qed.

(** X5. A reply that is valid JSON but not an object ends the turn with the
    parsing-error message, which names the type received and carries the raw
    reply; no tool is called. *)
Theorem non_object_selection q user_prompt completion s j :
  In (ChatCompletion system_prompt_tool_selection user_prompt completion)
     (trace (process_user_query rt w q)) ->
  completion_text completion = inr (Some s) ->
  json_parse rt s = inr j ->
  is_dict (py_of_json j) = false ->
  process_user_query rt w q
  = (inr (Some ("Error parsing LLM tool choice: "
                ++ ("'" ++ type_name (py_of_json j) ++ "' object has no attribute 'get'")
                ++ ". LLM response:" ++ nl ++ s)),
     [ListTools (list_tools w);
      ChatCompletion system_prompt_tool_selection user_prompt completion]).
Proof.
  intros Hsel Hs Hparse Hd.
  destruct (selection_event rt w q _ _ Hsel) as [_ Hrun].
  rewrite Hrun, Hs. clear Hrun.
  unfold act_on_reply, parse_tool_choice, tool_choice, json_loads_reply, json_loads.
  cbn [res_bind]. rewrite Hparse. cbn [res_bind].
  destruct (py_of_json j); try discriminate; reflexivity.
Qed.

(** X6. A selection that names a tool and has no "arguments" key calls the
    tool with the empty dict. *)
Theorem missing_arguments_default q user_prompt completion s entries tool_name :
  In (ChatCompletion system_prompt_tool_selection user_prompt completion)
     (trace (process_user_query rt w q)) ->
  completion_text completion = inr (Some s) ->
  json_loads rt s = inr (PyDict entries) ->
  dict_get "tool_name" entries = Some tool_name ->
  truthy tool_name = true ->
  dict_get "arguments" entries = None ->
  exists later,
    trace (process_user_query rt w q)
    = ListTools (list_tools w)
        :: ChatCompletion system_prompt_tool_selection user_prompt completion
        :: CallTool tool_name (PyDict []) (call_tool w tool_name (PyDict []))
        :: later.
Proof.
  intros Hsel Hs Hload Hn Ht Ha.
  destruct (selection_event rt w q _ _ Hsel) as [_ Hrun].
  assert (Hc : tool_choice rt (Some s) = inr (tool_name, PyDict [])).
  { unfold tool_choice, json_loads_reply. rewrite Hload. cbn [res_bind py_get].
    now rewrite Hn, Ha. }
  rewrite Hrun, Hs, (act_on_reply_selected rt w q (Some s) _ _ Hc).
  rewrite (act_on_choice_tool rt w q _ _ Ht),
    (call_mcp_tool_dict rt w tool_name (PyDict []) eq_refl).
  unfold bind, trace. cbn [fst snd app]. eexists. reflexivity.
Qed.

(** X7. When the first content item has a text or a data field, the items after
    it play no part in the tool output, and the normalization cannot raise. *)
Theorem first_item_decides first rest rest' :
  text first <> None \/ data first <> None ->
  tool_output_for_llm rt (first :: rest) = tool_output_for_llm rt (first :: rest')
  /\ exists out, tool_output_for_llm rt (first :: rest) = inr out.
Proof.
  intros H. cbn [tool_output_for_llm].
  destruct (text first) as [t|]; [split; [reflexivity|eexists; reflexivity]|].
  destruct (data first) as [d|]; [split; [reflexivity|eexists; reflexivity]|].
  destruct H as [H|H]; now elim H.
Qed.

Lemma tools_data_raises raw_tools tool_obj e :
  In tool_obj raw_tools ->
  parameter_schema_for_llm rt tool_obj = inl e ->
  exists e', tools_data rt raw_tools = inl e'.
Proof.
  induction raw_tools as [|t l IH]; [intros []|].
  intros [->|Hin] He; cbn [tools_data].
  - rewrite He. eexists; reflexivity.
  - destruct (parameter_schema_for_llm rt t); [eexists; reflexivity|].
    cbn [res_bind]. destruct (IH Hin He) as [e' ->]. eexists; reflexivity.
Qed.

(** X8. A single tool whose schema cannot be derived (its [inputSchema] object
    is rejected by [json.dumps], or its schema-bearing class raises) costs
    the whole catalog: the fetch returns the empty catalog and the turn
    answers that the tools could not be retrieved. *)
Theorem one_bad_schema_empties_catalog q raw_tools tool_obj e :
  list_tools w = inr raw_tools ->
  In tool_obj raw_tools ->
  parameter_schema_for_llm rt tool_obj = inl e ->
  value (list_mcp_tools_with_schema rt w) = inr []
  /\ process_user_query rt w q
     = (inr (Some "Error: Could not retrieve tools from the MCP server."),
        [ListTools (inr raw_tools)]).
Proof.
  intros Hl Hin He.
  assert (Hcat : value (list_mcp_tools_with_schema rt w) = inr []).
  { unfold list_mcp_tools_with_schema, value, bind, emit, ret.
    cbv beta iota delta [fst snd]. rewrite try_except_all, Hl. cbn [res_bind].
    destruct raw_tools as [|t l]; [reflexivity|].
    destruct (tools_data_raises _ _ _ Hin He) as [e' ->]. reflexivity. }
  split; [assumption|].
  rewrite (process_user_query_run rt w q [] Hcat), Hl. reflexivity.
Qed.

Lemma tools_data_entries raw_tools catalog :
  tools_data rt raw_tools = inr catalog ->
  Forall2 (fun t entry =>
             exists schema, parameter_schema_for_llm rt t = inr schema
                            /\ entry = catalog_entry t schema)
          raw_tools catalog.
Proof.
  revert catalog. induction raw_tools as [|t l IH]; intros catalog; cbn [tools_data].
  - intros H. inversion H. constructor.
  - destruct (parameter_schema_for_llm rt t) as [e|schema] eqn:Hs; [discriminate|].
    cbn [res_bind]. destruct (tools_data rt l) as [e|others]; [discriminate|].
    cbn [res_bind]. intros H. inversion H; subst. constructor; eauto.
Qed.

(** X9. The catalog is the listing, tool by tool: when the fetch yields a
    catalog that is not empty, it has one entry per listed tool, in the
    listing's order, each with the tool's own name, description and derived
    schema. Tools are neither dropped, merged nor reordered, so names that
    occur twice in the listing occur twice in the catalog. *)
Theorem catalog_follows_listing raw_tools catalog :
  list_tools w = inr raw_tools ->
  value (list_mcp_tools_with_schema rt w) = inr catalog ->
  catalog <> [] ->
  Forall2 (fun t entry =>
             exists schema, parameter_schema_for_llm rt t = inr schema
                            /\ entry = catalog_entry t schema)
          raw_tools catalog
  /\ List.length catalog = List.length raw_tools
  /\ map (fun entry => py_getitem entry "name") catalog
     = map (fun t => inr (PyStr (name t))) raw_tools.
Proof.
  intros Hl Hv Hne.
  assert (Hd : tools_data rt raw_tools = inr catalog).
  { unfold list_mcp_tools_with_schema, value, bind, emit, ret in Hv.
    cbv beta iota delta [fst snd] in Hv. rewrite try_except_all, Hl in Hv.
    cbn [res_bind] in Hv. destruct raw_tools as [|t l].
    - inversion Hv; subst. now elim Hne.
    - destruct (tools_data rt (t :: l)); inversion Hv; subst;
        [now elim Hne|reflexivity]. }
  pose proof (tools_data_entries _ _ Hd) as HF. split; [assumption|].
  clear Hl Hv Hne Hd. induction HF as [|t entry l l' (schema & _ & ->) _ IH].
  - split; reflexivity.
  - destruct IH as [IH1 IH2]. cbn [List.length map]. rewrite IH1, IH2.
    split; reflexivity.
Qed.

Lemma tools_data_json raw_tools :
  Forall (fun t => is_json (description t) = true
                   /\ exists entries, inputSchema t = Some (PyDict entries)
                                      /\ is_json (PyDict entries) = true)
         raw_tools ->
  exists catalog, tools_data rt raw_tools = inr catalog
                  /\ is_json (PyList catalog) = true
                  /\ List.length catalog = List.length raw_tools.
Proof.
  induction 1 as [|t l (Hdesc & entries & Hin & Hj) _ (catalog & Hc & Hcj & Hlen)].
  - exists []. repeat split.
  - cbn [tools_data]. unfold parameter_schema_for_llm at 1. rewrite Hin.
    destruct (encode_total (json_float rt) (Some 2%nat) _ 0%nat Hj) as [txt Htxt].
    unfold json_dumps_indent2 at 1. rewrite Htxt. cbn [res_bind]. rewrite Hc.
    cbn [res_bind]. eexists. split; [reflexivity|]. split.
    + cbn [is_json forallb snd] in *. now rewrite Hdesc, Hj, Hcj.
    + cbn [List.length]. now rewrite Hlen.
Qed.

(** X4. When every listed tool has a JSON description and a JSON object as
    [inputSchema], as tools that arrive over the MCP wire do, the turn never
    raises. *)
Theorem json_listing_never_raises q raw_tools :
  list_tools w = inr raw_tools ->
  Forall (fun t => is_json (description t) = true
                   /\ exists entries, inputSchema t = Some (PyDict entries)
                                      /\ is_json (PyDict entries) = true)
         raw_tools ->
  exists answer, value (process_user_query rt w q) = inr answer.
Proof.
  intros Hl Hall.
  destruct (tools_data_json _ Hall) as (catalog & Hc & Hj & Hlen).
  assert (Hv : value (list_mcp_tools_with_schema rt w) = inr catalog).
  { unfold list_mcp_tools_with_schema, value, bind, emit, ret.
    cbv beta iota delta [fst snd]. rewrite try_except_all, Hl. cbn [res_bind].
    destruct raw_tools; [cbn in Hc; inversion Hc; reflexivity|now rewrite Hc]. }
  rewrite (process_user_query_run rt w q catalog Hv).
  destruct catalog as [|entry others]; [eexists; reflexivity|].
  destruct (encode_total (json_float rt) (Some 2%nat) _ 0%nat Hj) as [tj Htj].
  unfold value at 1. cbn [fst].
  exact (select_and_act_returns q _ tj Htj).
Qed.

(** X23. A selection completion without content ([None]) is not parsed:
    [json.loads] raises a [TypeError], and the turn ends with the
    parsing-error message, which carries that error and "None" as the
    reply; no tool is called and no second oracle call is made. *)
Theorem selection_without_content q user_prompt :
  In (ChatCompletion system_prompt_tool_selection user_prompt (inr None))
     (trace (process_user_query rt w q)) ->
  process_user_query rt w q
  = (inr (Some ("Error parsing LLM tool choice: "
                ++ "the JSON object must be str, bytes or bytearray, not NoneType"
                ++ ". LLM response:" ++ nl ++ "None")),
     [ListTools (list_tools w);
      ChatCompletion system_prompt_tool_selection user_prompt (inr None)]).
Proof.
  intros Hsel.
  destruct (selection_event rt w q _ _ Hsel) as [_ Hrun].
  rewrite Hrun. reflexivity.
Qed.

(** X24. A tool call that succeeds with content that has no normalized
    string (a first item without text and data, and a view that
    [json.dumps] rejects) is answered like a failed call: the turn's answer
    is the tool-error message with the serializer's message, and there is no
    narration. *)
Theorem unserializable_result_is_a_tool_error q tool_name tool_arguments items e :
  In (CallTool tool_name tool_arguments (inr items))
     (trace (process_user_query rt w q)) ->
  tool_output_for_llm rt items = inl e ->
  exists user_prompt completion,
    process_user_query rt w q
    = (inr (Some ("Error executing tool '" ++ fmt rt tool_name
                  ++ "' on MCP server: " ++ exc_msg e)),
       [ListTools (list_tools w);
        ChatCompletion system_prompt_tool_selection user_prompt completion;
        CallTool tool_name tool_arguments (inr items)])
    /\ exists first rest,
        items = first :: rest /\ text first = None /\ data first = None
        /\ json_dumps rt (PyList (map object_view items)) = inl e.
Proof.
  intros Hin Hout.
  destruct (call_tool_event rt w q _ _ _ Hin)
    as (u & c & s & Hsel & Hs & Hc & Ho & Ht & Hd).
  destruct (selection_event rt w q u c Hsel) as [_ Hrun].
  exists u, c. split.
  - rewrite Hrun, Hs, (act_on_reply_selected rt w q s _ _ Hc).
    rewrite (act_on_choice_tool rt w q _ _ Ht), (call_mcp_tool_dict rt w _ _ Hd).
    rewrite <- Ho, Hout. reflexivity.
  - destruct items as [|first rest]; [discriminate|].
    exists first, rest. cbn [tool_output_for_llm] in Hout.
    destruct (text first); [discriminate|].
    destruct (data first); [discriminate|]. repeat split. exact Hout.
Qed.

End AppMore.

(* ===================================================================== *)
(** ** The chat handler of app.py *)
(* ===================================================================== *)

Section ChatFacts.
Import Py Tr Chat.
Variable rt : Runtime.
Variable c : Connection.
Variable w : App.World.

#[local] Opaque String.append String.concat.

(** [json.dumps] raises nothing but [TypeError]. *)
Lemma encode_raises_TypeError (jf : float -> string) (indent : option nat) :
  forall v level e, encode jf indent level v = inl e -> exc_class e = TypeError.
Proof.
  fix IH 1.
  intros [ | [|] | n | x | s | raw | items | entries | n sch | m n] level e;
    cbn [encode]; try discriminate;
    try (intros H; inversion H; reflexivity).
  - match goal with
    | |- context [res_bind (?go items) _] =>
        assert (Hgo : forall e', go items = inl e' -> exc_class e' = TypeError)
    end.
    { induction items as [|a l IHl]; [discriminate|].
      destruct (encode jf indent (S level) a) as [e0|s0] eqn:Ha; cbn [res_bind].
      - intros e' H. inversion H; subst. eapply IH; eauto.
      - match goal with
        | |- context [res_bind (?go l) _] => destruct (go l) as [e1|ss] eqn:Hl
        end; cbn [res_bind]; [|discriminate].
        intros e' H. inversion H; subst. now apply IHl. }
    match goal with
    | |- context [res_bind (?go items) _] => destruct (go items) as [e1|ps]
    end; cbn [res_bind]; [|discriminate].
    intros H. inversion H; subst. now apply Hgo.
  - match goal with
    | |- context [res_bind (?go entries) _] =>
        assert (Hgo : forall e', go entries = inl e' -> exc_class e' = TypeError)
    end.
    { induction entries as [|[k a] l IHl]; [discriminate|].
      destruct (encode jf indent (S level) a) as [e0|s0] eqn:Ha; cbn [res_bind].
      - intros e' H. inversion H; subst. eapply IH; eauto.
      - match goal with
        | |- context [res_bind (?go l) _] => destruct (go l) as [e1|ss] eqn:Hl
        end; cbn [res_bind]; [|discriminate].
        intros e' H. inversion H; subst. now apply IHl. }
    match goal with
    | |- context [res_bind (?go entries) _] => destruct (go entries) as [e1|ps]
    end; cbn [res_bind]; [|discriminate].
    intros H. inversion H; subst. now apply Hgo.
Qed.

(** What a turn raises, when it raises, is a [TypeError]. *)
Lemma turn_raises_TypeError q e :
  value (App.process_user_query rt w q) = inl e -> exc_class e = TypeError.
Proof.
  destruct (list_mcp_tools_with_schema_returns rt w) as [tools Htools].
  rewrite (process_user_query_run rt w q tools Htools).
  destruct tools as [|t ts]; [discriminate|].
  rewrite select_and_act_run.
  destruct (json_dumps_indent2 rt (PyList (t :: ts))) as [e'|tj] eqn:Hd.
  - intros H. inversion H; subst. eapply encode_raises_TypeError; exact Hd.
  - cbv zeta. unfold value. cbn [fst]. intros H.
    destruct (act_on_reply_returns rt w q
                (App.chat_completions_create w App.system_prompt_tool_selection
                   (App.user_prompt_tool_selection q tj))) as [a Ha].
    unfold value in Ha. congruence.
Qed.

(** With the two handlers of app.py 222-226 nothing is raised past
    [bot_response]. *)
Lemma bot_response_returns message_text :
  exists answer, value (bot_response rt c w message_text) = inr answer.
Proof.
  unfold bot_response, bind, value. cbn [fst ret].
  destruct (fst (guarded_turn rt c w message_text)) as [e|a];
    [|eexists; reflexivity].
  cbn [try_except].
  destruct (issubclass_exc (exc_class e) ConnectionRefusedError);
    eexists; reflexivity.
Qed.

Lemma chat_interface_fn_trace message_text history :
  trace (chat_interface_fn rt c w message_text history)
  = trace (guarded_turn rt c w message_text).
Proof.
  unfold chat_interface_fn, bot_response, bind, trace. cbn [fst snd ret].
  now rewrite !app_nil_r.
Qed.

Lemma chat_interface_fn_value message_text history :
  value (chat_interface_fn rt c w message_text history)
  = res_bind (value (bot_response rt c w message_text)) (fun answer =>
      inr (EmptyString,
           (history ++ [message "user" (PyStr message_text);
                        message "assistant" (py_optional answer)])%list)).
Proof. reflexivity. Qed.

(** X10. The handler never raises. It returns the empty string for the textbox
    and the history it was given followed by exactly two entries: the user's
    message, word for word, and the assistant's reply. Nothing of the earlier
    history is changed or dropped. *)
Theorem chat_appends_one_exchange message_text history :
  exists answer,
    value (chat_interface_fn rt c w message_text history)
    = inr (EmptyString,
           (history ++ [message "user" (PyStr message_text);
                        message "assistant" (py_optional answer)])%list)
    /\ value (bot_response rt c w message_text) = inr answer.
Proof.
  destruct (bot_response_returns message_text) as [answer Ha].
  exists answer. split; [|assumption].
  now rewrite chat_interface_fn_value, Ha.
Qed.

(** X11. When the client cannot be entered, no call reaches the tool host or the
    oracle and there is nothing to close; the reply is the fixed
    "Could not connect" message for a refused connection and the
    "unexpected error" text with the exception's message otherwise. *)
Theorem connection_failure_is_reported message_text history e :
  aenter c = inl e ->
  chat_interface_fn rt c w message_text history
  = (inr (EmptyString,
          (history ++ [message "user" (PyStr message_text);
                       message "assistant"
                         (PyStr
                            (if issubclass_exc (exc_class e) ConnectionRefusedError
                             then "Error: Could not connect to the MCP server. Is it running and accessible?"
                             else "An unexpected error occurred: " ++ exc_msg e))])%list),
     [Enter (inl e)]).
Proof.
  intros He.
  unfold chat_interface_fn, bot_response, guarded_turn, bind, emit, ret.
  rewrite He. cbn [fst snd app try_except].
  destruct (issubclass_exc (exc_class e) ConnectionRefusedError); reflexivity.
Qed.

(** X12. A client that was entered is left exactly once, after every call of the
    turn, whether the turn returns or raises. *)
Theorem connection_is_always_closed message_text history u :
  aenter c = inr u ->
  trace (chat_interface_fn rt c w message_text history)
  = (Enter (inr u)
       :: map InTurn (trace (App.process_user_query rt w message_text))
       ++ [Exit (aexit c)])%list
  /\ List.length (filter is_exit (trace (chat_interface_fn rt c w message_text history)))
     = 1%nat.
Proof.
  intros Hu.
  assert (Ht : trace (chat_interface_fn rt c w message_text history)
               = (Enter (inr u)
                    :: map InTurn (trace (App.process_user_query rt w message_text))
                    ++ [Exit (aexit c)])%list).
  { rewrite chat_interface_fn_trace.
    unfold guarded_turn, bind, emit, trace. rewrite Hu. reflexivity. }
  split; [assumption|]. rewrite Ht. clear Ht. cbn [filter is_exit].
  rewrite filter_app. cbn [filter is_exit].
  replace (filter is_exit (map InTurn (trace (App.process_user_query rt w message_text))))
    with (@nil Event); [reflexivity|].
  induction (trace (App.process_user_query rt w message_text)) as [|ev l IH];
    [reflexivity|]. cbn [map filter is_exit]. exact IH.
Qed.

(** X13. With a client that opens and closes normally, the assistant's reply is
    what the turn returns; when the turn raises (the catalog could not
    be serialized) it is the "unexpected error" text with that exception's
    message. *)
Theorem reply_is_the_turn_answer message_text history u u' :
  aenter c = inr u -> aexit c = inr u' ->
  value (chat_interface_fn rt c w message_text history)
  = inr (EmptyString,
         (history ++ [message "user" (PyStr message_text);
                      message "assistant"
                        match value (App.process_user_query rt w message_text) with
                        | inr answer => py_optional answer
                        | inl e => PyStr ("An unexpected error occurred: " ++ exc_msg e)
                        end])%list).
Proof.
  intros Hu Hu'. rewrite chat_interface_fn_value.
  unfold bot_response, guarded_turn, bind, emit, ret, value.
  rewrite Hu, Hu'. cbn [fst snd].
  fold (value (App.process_user_query rt w message_text)).
  destruct (value (App.process_user_query rt w message_text)) as [e|a] eqn:Hv;
    [|reflexivity].
  cbn [try_except]. rewrite (turn_raises_TypeError _ _ Hv). reflexivity.
Qed.

(** X14. When leaving the client raises, the turn's answer is lost: the reply is
    built from the exception of the exit, although every call of the turn
    has been made. *)
Theorem failed_exit_replaces_the_answer message_text history u e :
  aenter c = inr u -> aexit c = inl e ->
  value (chat_interface_fn rt c w message_text history)
  = inr (EmptyString,
         (history ++ [message "user" (PyStr message_text);
                      message "assistant"
                        (PyStr
                           (if issubclass_exc (exc_class e) ConnectionRefusedError
                            then "Error: Could not connect to the MCP server. Is it running and accessible?"
                            else "An unexpected error occurred: " ++ exc_msg e))])%list)
  /\ forall ev, In ev (trace (App.process_user_query rt w message_text)) ->
                In (InTurn ev) (trace (chat_interface_fn rt c w message_text history)).
Proof.
  intros Hu He. split.
  - rewrite chat_interface_fn_value.
    unfold bot_response, guarded_turn, bind, emit, ret, value.
    rewrite Hu, He. cbn [fst snd try_except].
    destruct (issubclass_exc (exc_class e) ConnectionRefusedError); reflexivity.
  - intros ev Hin. rewrite chat_interface_fn_trace.
    unfold guarded_turn, bind, emit, trace. rewrite Hu. cbn [fst snd app].
    right. apply in_or_app. left. now apply in_map.
Qed.

End ChatFacts.

(* ===================================================================== *)
(** ** Further properties of the search tool and of the server's start *)
(* ===================================================================== *)

Section ServerMore.
Import Py Tr Server Shape.
Variable rt : Runtime.
Variable w : World.

#[local] Opaque String.append String.concat.

Lemma lstrip_chars_head cs :
  match lstrip_chars cs with
  | [] => True
  | c :: _ => is_space c = false
  end.
Proof.
  induction cs as [|c cs IH]; [exact I|].
  cbn [lstrip_chars]. destruct (is_space c) eqn:Hc; [exact IH|exact Hc].
Qed.

Lemma lstrip_chars_split cs :
  exists ws, cs = (ws ++ lstrip_chars cs)%list.
Proof.
  induction cs as [|c cs [ws IH]]; [exists []; reflexivity|].
  cbn [lstrip_chars]. destruct (is_space c).
  - exists (c :: ws). cbn [app]. now rewrite <- IH.
  - exists []. reflexivity.
Qed.

(** [strip] leaves no whitespace at either end. *)
Lemma strip_trimmed s : trimmed (strip s).
Proof.
  unfold trimmed, strip. rewrite list_ascii_of_string_of_list_ascii.
  set (m := lstrip_chars (list_ascii_of_string s)).
  set (t := lstrip_chars (rev m)).
  split.
  - destruct (lstrip_chars_split (rev m)) as [ws Hws]. fold t in Hws.
    assert (Hm : m = (rev t ++ rev ws)%list).
    { rewrite <- rev_app_distr, <- Hws. symmetry. apply rev_involutive. }
    pose proof (lstrip_chars_head (list_ascii_of_string s)) as Hh. fold m in Hh.
    destruct (rev t) as [|c r]; [exact I|].
    rewrite Hm in Hh. exact Hh.
  - rewrite rev_involutive. apply lstrip_chars_head.
Qed.

Lemma strip_not_blank q :
  strip q <> EmptyString -> String.eqb (strip q) EmptyString = false.
Proof. intros H. now apply String.eqb_neq. Qed.

(** X15. The client raises nothing but [TavilySearchError], as its docstring
    says: a blank query is refused before any request is made, and every way
    the request can fail is converted. For any other query exactly one
    request is made. *)
Theorem search_raises_TavilySearchError_only key q n d :
  (forall e, value (search w key q n d) = inl e ->
             exc_class e = TavilySearchError)
  /\ (strip q = EmptyString ->
      search w key q n d
      = (inl (mkExc TavilySearchError "Search query cannot be empty"),
         [Search q n d]))
  /\ (strip q <> EmptyString ->
      List.length (filter is_post (trace (search w key q n d))) = 1%nat).
Proof.
  split; [|split].
  - intros e. unfold search, bind, emit, ret, value.
    destruct (String.eqb (strip q) EmptyString); cbn [fst snd].
    + intros H. inversion H. reflexivity.
    + destruct (post w _ _); intros H; inversion H; reflexivity.
  - intros Hq. unfold search. rewrite Hq. reflexivity.
  - intros Hq. rewrite (search_trace w key q n d (strip_not_blank q Hq)).
    reflexivity.
Qed.

(** X16. The log of one call of the tool is empty or is one search followed by
    its one request; the search's own blank-query check cannot fire, since the
    tool has already refused such a query. Nothing is searched or posted when
    the query is not a usable string, when the limit does not convert to an
    integer, or when no API key is configured. *)
Theorem at_most_one_request query max_results search_depth :
  (trace (tavily_search rt w query max_results search_depth) = []
   \/ exists q n d url payload,
       trace (tavily_search rt w query max_results search_depth)
       = [Search q n d; Post url payload (post w url payload)]
       /\ query = PyStr q /\ strip q <> EmptyString)
  /\ (is_str query = false
      \/ (exists q, query = PyStr q /\ strip q = EmptyString)
      \/ (exists e, py_int rt max_results = inl e)
      \/ (exists e, get_tavily_client w = inl e) ->
      trace (tavily_search rt w query max_results search_depth) = []).
Proof.
  rewrite tavily_search_trace. unfold tavily_search_body. split.
  - destruct query; try (left; reflexivity).
    destruct (String.eqb (strip s) EmptyString) eqn:Hq; [left; reflexivity|].
    destruct (py_int rt max_results) as [e|m]; [left; reflexivity|].
    destruct (get_tavily_client w) as [e|key]; [left; reflexivity|].
    right. unfold trace at 1, bind. cbn [snd ret]. rewrite app_nil_r.
    fold (trace (search w key s (clamp_max_results m)
                        (checked_search_depth search_depth))).
    rewrite (search_trace w key s _ _ Hq).
    do 5 eexists. split; [reflexivity|]. split; [reflexivity|].
    now apply String.eqb_neq.
  - intros [Hs|[(q & -> & Hq)|[(e & He)|(e & He)]]].
    + destruct query; try reflexivity. discriminate.
    + rewrite Hq. reflexivity.
    + destruct query; try reflexivity.
      destruct (String.eqb (strip s) EmptyString); [reflexivity|].
      now rewrite He.
    + destruct query; try reflexivity.
      destruct (String.eqb (strip s) EmptyString); [reflexivity|].
      destruct (py_int rt max_results); [reflexivity|]. now rewrite He.
Qed.

(** X17. What the provider is sent: a POST to https://api.tavily.com/search with
    the configured, non-empty API key and the query with its surrounding
    whitespace removed, which is not empty; an answer is asked for, images
    and raw content are not. *)
Theorem provider_request query max_results search_depth url payload outcome :
  In (Post url payload outcome)
     (trace (tavily_search rt w query max_results search_depth)) ->
  exists q key,
    query = PyStr q
    /\ TAVILY_API_KEY w = Some key /\ key <> EmptyString
    /\ url = "https://api.tavily.com/search"
    /\ outcome = post w url payload
    /\ py_getitem payload "api_key" = inr (PyStr key)
    /\ py_getitem payload "query" = inr (PyStr (strip q))
    /\ strip q <> EmptyString /\ trimmed (strip q)
    /\ py_getitem payload "include_answer" = inr (PyBool true)
    /\ py_getitem payload "include_images" = inr (PyBool false)
    /\ py_getitem payload "include_raw_content" = inr (PyBool false).
Proof.
  intros Hin.
  destruct (tavily_search_events rt w _ _ _ _ Hin)
    as (q & m & key & -> & Hm & Hkey & Hin' & Hq).
  rewrite (search_trace w key q _ _ Hq) in Hin'.
  destruct Hin' as [H|[H|[]]]; [discriminate|].
  inversion H; subst; clear H.
  exists q, key.
  assert (Hk : TAVILY_API_KEY w = Some key /\ key <> EmptyString).
  { unfold get_tavily_client in Hkey.
    destruct (TAVILY_API_KEY w) as [k|]; [|discriminate].
    destruct (String.eqb_spec k EmptyString); [discriminate|].
    inversion Hkey; subst. split; [reflexivity|assumption]. }
  destruct Hk as [Hk1 Hk2].
  repeat split; try assumption; try reflexivity.
  - now apply String.eqb_neq.
  - apply (proj1 (strip_trimmed q)).
  - apply (proj2 (strip_trimmed q)).
Qed.

Lemma format_each_dicts rs :
  format_each (map PyDict rs) = inr (map result_entry rs).
Proof.
  induction rs as [|d rs IH]; [reflexivity|].
  cbn [map format_each py_get res_bind]. rewrite IH. reflexivity.
Qed.

(** X18. The formatted list follows the provider's reply: first the answer
    entry, when the reply has a truthy "answer", then one entry per result,
    in the reply's order. Each result entry has exactly the five keys type,
    title, url, content and score; a missing title, url or content becomes
    the empty string, a missing score 0.0, and any other field of the
    result is dropped. A reply without "results" gives no result entries. *)
Theorem results_are_formatted_in_order query d rs :
  get_or "results" (PyList []) d = PyList (map PyDict rs) ->
  format_results query (PyDict d)
  = inr ((if truthy (get_or "answer" PyNone d)
          then [answer_entry (get_or "answer" PyNone d) query]
          else [])
         ++ map result_entry rs)%list.
Proof.
  intros Hr. unfold format_results. cbn [py_get res_bind].
  fold (get_or "answer" PyNone d). fold (get_or "results" (PyList []) d).
  rewrite Hr. cbn [py_iter res_bind]. rewrite format_each_dicts. cbn [res_bind].
  destruct (truthy (get_or "answer" PyNone d)) eqn:Ht; [|reflexivity].
  unfold get_or in *. cbn [py_getitem].
  destruct (dict_get "answer" d); [reflexivity|discriminate].
Qed.

(** X19. A reply of the provider that is JSON but not an object is reported as an
    "Unexpected error" naming the type received. *)
Theorem malformed_reply_is_reported query max_results search_depth url payload body :
  In (Post url payload (Returned body))
     (trace (tavily_search rt w query max_results search_depth)) ->
  is_dict (py_of_json body) = false ->
  value (tavily_search rt w query max_results search_depth)
  = inr (PyList [PyDict [("error",
           PyStr ("Unexpected error: "
                  ++ ("'" ++ type_name (py_of_json body)
                      ++ "' object has no attribute 'get'")))]]).
Proof.
  intros Hin Hd.
  destruct (tavily_search_events rt w _ _ _ _ Hin)
    as (q & m & key & -> & Hm & Hkey & Hin' & Hq).
  pose proof (search_value w key q _ _ Hq _ _ _ Hin') as Hv. cbv beta iota in Hv.
  rewrite tavily_search_value,
    (tavily_search_body_searches rt w q max_results search_depth m key Hq Hm Hkey).
  unfold bind. unfold value at 1. cbn [fst ret].
  fold (value (search w key q (clamp_max_results m)
                      (checked_search_depth search_depth))).
  rewrite Hv. cbn [res_bind]. unfold format_results.
  destruct (py_of_json body); try discriminate; reflexivity.
Qed.

(** X20. A limit that [int()] rejects ends the call before any search, in a
    one-entry error list. A [ValueError] (a non-numeric string) is reported
    under the label "Configuration error", the one a missing API key gets; a
    [TypeError] (such as [None]) under "Unexpected error". *)
Theorem unconvertible_limit_is_reported q max_results search_depth e :
  strip q <> EmptyString ->
  py_int rt max_results = inl e ->
  (exc_class e = ValueError ->
   tavily_search rt w (PyStr q) max_results search_depth
   = (inr (PyList [PyDict [("error",
             PyStr ("Configuration error: " ++ exc_msg e))]]), []))
  /\ (exc_class e = TypeError ->
      tavily_search rt w (PyStr q) max_results search_depth
      = (inr (PyList [PyDict [("error",
                PyStr ("Unexpected error: " ++ exc_msg e))]]), [])).
Proof.
  intros Hq He.
  assert (Hb : tavily_search_body rt w (PyStr q) max_results search_depth
               = (inl e, [])).
  { unfold tavily_search_body. now rewrite (strip_not_blank q Hq), He. }
  split; intros Hc; unfold tavily_search, bind; rewrite Hb;
    cbn [fst snd ret app try_except]; rewrite Hc; reflexivity.
Qed.

(** X21. [main] starts the server exactly when [get_tavily_client] would find a
    key: with no key, or an empty one, it logs that the key is required
    and starts nothing; otherwise it runs the server once and logs how the
    run ended. *)
Theorem main_runs_iff_configured (run : Launch.RunOutcome) :
  (existsb Launch.is_run (trace (Launch.main w run)) = true
   <-> exists key, get_tavily_client w = inr key)
  /\ (List.length (filter Launch.is_run (trace (Launch.main w run))) <= 1)%nat
  /\ ((exists e, get_tavily_client w = inl e) ->
      trace (Launch.main w run)
      = [Launch.LogError "TAVILY_API_KEY environment variable is required"])
  /\ (In (Launch.Run run) (trace (Launch.main w run)) ->
      match run with
      | Launch.Returned => True
      | Launch.KeyboardInterrupt =>
          In (Launch.LogInfo "Server stopped by user") (trace (Launch.main w run))
      | Launch.Raised e =>
          In (Launch.LogError ("Server error: " ++ exc_msg e))
             (trace (Launch.main w run))
      end).
Proof.
  assert (Hoff : (exists e, get_tavily_client w = inl e) ->
                 Launch.main w run
                 = (tt, [Launch.LogError "TAVILY_API_KEY environment variable is required"])).
  { unfold Launch.main, get_tavily_client. intros [e He].
    destruct (TAVILY_API_KEY w) as [key|]; [|reflexivity].
    destruct (String.eqb key EmptyString); [reflexivity|discriminate]. }
  assert (Hon : (exists key, get_tavily_client w = inr key) ->
                trace (Launch.main w run)
                = Launch.LogInfo "Starting Tavily Search MCP Server..."
                    :: Launch.Run run
                    :: match run with
                       | Launch.Returned => []
                       | Launch.KeyboardInterrupt =>
                           [Launch.LogInfo "Server stopped by user"]
                       | Launch.Raised e =>
                           [Launch.LogError ("Server error: " ++ exc_msg e)]
                       end).
  { unfold Launch.main, get_tavily_client. intros [k Hk].
    destruct (TAVILY_API_KEY w) as [key|]; [|discriminate].
    destruct (String.eqb key EmptyString); [discriminate|].
    destruct run; reflexivity. }
  destruct (get_tavily_client w) as [e|key] eqn:Hc.
  - rewrite (Hoff (ex_intro _ e eq_refl)). unfold trace. cbn [snd].
    split; [|split; [|split]].
    + split; [discriminate|]. intros [k Hk]. discriminate.
    + cbn. lia.
    + reflexivity.
    + intros [H|[]]. discriminate.
  - rewrite (Hon (ex_intro _ key eq_refl)).
    split; [|split; [|split]].
    + split; [eauto|reflexivity].
    + destruct run; cbn; lia.
    + intros [e He]. discriminate.
    + intros _. destruct run; [exact I| |]; right; right; left; reflexivity.
Qed.

(** X22. When [main] has started the server, the tool it serves finds its key:
    for a usable query and a limit that converts, one search is made, with
    the clamped limit, the checked depth and the key of the environment. *)
Theorem served_tool_finds_its_key (run : Launch.RunOutcome)
        q max_results search_depth m :
  existsb Launch.is_run (trace (Launch.main w run)) = true ->
  strip q <> EmptyString ->
  py_int rt max_results = inr m ->
  exists key url payload,
    TAVILY_API_KEY w = Some key
    /\ trace (tavily_search rt w (PyStr q) max_results search_depth)
       = [Search q (clamp_max_results m) (checked_search_depth search_depth);
          Post url payload (post w url payload)]
    /\ py_getitem payload "api_key" = inr (PyStr key).
Proof.
  intros Hrun Hq Hm.
  assert (Hkey : exists key, TAVILY_API_KEY w = Some key
                             /\ get_tavily_client w = inr key).
  { unfold Launch.main, get_tavily_client in *.
    destruct (TAVILY_API_KEY w) as [key|]; [|discriminate].
    destruct (String.eqb key EmptyString); [discriminate|]. eauto. }
  destruct Hkey as (key & Hk & Hc). exists key.
  rewrite tavily_search_trace,
    (tavily_search_body_searches rt w q max_results search_depth m key
       (strip_not_blank q Hq) Hm Hc).
  unfold trace at 1, bind. cbn [snd ret]. rewrite app_nil_r.
  fold (trace (search w key q (clamp_max_results m)
                      (checked_search_depth search_depth))).
  rewrite (search_trace w key q _ _ (strip_not_blank q Hq)).
  do 2 eexists. split; [assumption|]. split; reflexivity.
Qed.

End ServerMore.

(* ===================================================================== *)
(** ** The further properties on concrete runs *)
(* ===================================================================== *)

Section MoreScenarios.
Import Py Tr App Doubles MoreDoubles Shape.

(** Scenario B, call by call. *)
Lemma tool_result_is_narrated_witness :
  exists selection_prompt selection arguments_json,
    json_dumps runtime (py_of_json search_arguments) = inr arguments_json
    /\ process_user_query runtime scenario_B "search for recent AI news"
       = (completion_text
            (chat_completions_create scenario_B system_prompt_summarize
               (user_prompt_summarize runtime "search for recent AI news"
                  (PyStr "tavily_search") arguments_json "AI news summary...")),
          [ListTools (list_tools scenario_B);
           ChatCompletion system_prompt_tool_selection selection_prompt selection;
           CallTool (PyStr "tavily_search") (py_of_json search_arguments)
                    (inr [text_item "AI news summary..."]);
           ChatCompletion system_prompt_summarize
             (user_prompt_summarize runtime "search for recent AI news"
                (PyStr "tavily_search") arguments_json "AI news summary...")
             (chat_completions_create scenario_B system_prompt_summarize
                (user_prompt_summarize runtime "search for recent AI news"
                   (PyStr "tavily_search") arguments_json "AI news summary..."))]).
Proof.
  assert (Hin : In (CallTool (PyStr "tavily_search") (py_of_json search_arguments)
                             (inr [text_item "AI news summary..."]))
                   (trace (process_user_query runtime scenario_B
                                              "search for recent AI news")))
    by find_event.
  exact (tool_result_is_narrated runtime scenario_B "search for recent AI news"
           _ _ _ "AI news summary..." Hin eq_refl).
Defined.

(** A catalog holding bytes cannot be shown to the oracle. *)
Lemma turn_raises_only_on_catalog_witness :
  value (process_user_query runtime scenario_raw_parameters "anything")
  = inl (mkExc TypeError "Object of type bytes is not JSON serializable")
  /\ exists tools,
      value (list_mcp_tools_with_schema runtime scenario_raw_parameters) = inr tools
      /\ tools <> []
      /\ json_dumps_indent2 runtime (PyList tools)
         = inl (mkExc TypeError "Object of type bytes is not JSON serializable")
      /\ trace (process_user_query runtime scenario_raw_parameters "anything")
         = [ListTools (list_tools scenario_raw_parameters)].
Proof.
  split; [reflexivity|].
  exact (turn_raises_only_on_catalog runtime scenario_raw_parameters "anything"
           _ eq_refl).
Defined.

Lemma json_listing_never_raises_witness :
  exists answer,
    value (process_user_query runtime scenario_B "search for recent AI news")
    = inr answer.
Proof.
  refine (json_listing_never_raises runtime scenario_B "search for recent AI news"
            [search_tool] eq_refl _).
  repeat constructor. eexists. split; reflexivity.
Defined.

(** The oracle replies with a JSON array. *)
Lemma non_object_selection_witness :
  exists user_prompt,
    process_user_query runtime_more scenario_array "find cats"
    = (inr (Some ("Error parsing LLM tool choice: "
                  ++ ("'" ++ "list" ++ "' object has no attribute 'get'")
                  ++ ". LLM response:" ++ nl ++ selection_array_text)),
       [ListTools (list_tools scenario_array);
        ChatCompletion system_prompt_tool_selection user_prompt
                       (inr (Some selection_array_text))]).
Proof.
  eexists.
  assert (Hin : In (ChatCompletion system_prompt_tool_selection _
                                   (inr (Some selection_array_text)))
                   (trace (process_user_query runtime_more scenario_array "find cats")))
    by find_event.
  exact (non_object_selection runtime_more scenario_array "find cats" _ _
           selection_array_text selection_array Hin eq_refl eq_refl eq_refl).
Defined.

(** The oracle names the tool and gives no arguments. *)
Lemma missing_arguments_default_witness :
  exists user_prompt later,
    trace (process_user_query runtime_more scenario_bare "search")
    = ListTools (list_tools scenario_bare)
        :: ChatCompletion system_prompt_tool_selection user_prompt
                          (inr (Some selection_bare_text))
        :: CallTool (PyStr "tavily_search") (PyDict [])
                    (call_tool scenario_bare (PyStr "tavily_search") (PyDict []))
        :: later.
Proof.
  eexists.
  assert (Hin : In (ChatCompletion system_prompt_tool_selection _
                                   (inr (Some selection_bare_text)))
                   (trace (process_user_query runtime_more scenario_bare "search")))
    by find_event.
  exact (missing_arguments_default runtime_more scenario_bare "search" _ _
           selection_bare_text [("tool_name", PyStr "tavily_search")]
           (PyStr "tavily_search") Hin eq_refl eq_refl eq_refl eq_refl eq_refl).
Defined.

Lemma first_item_decides_witness :
  tool_output_for_llm runtime [text_item "one"; image_item "abc"]
  = tool_output_for_llm runtime [text_item "one"; plain_item "x"; plain_item "y"]
  /\ exists out,
      tool_output_for_llm runtime [text_item "one"; image_item "abc"] = inr out.
Proof.
  refine (first_item_decides runtime (text_item "one") [image_item "abc"]
            [plain_item "x"; plain_item "y"] _).
  left. discriminate.
Defined.

(** The oracle's selection has no content. *)
Lemma selection_without_content_witness :
  exists user_prompt,
    process_user_query runtime scenario_no_selection "find cats"
    = (inr (Some ("Error parsing LLM tool choice: "
                  ++ "the JSON object must be str, bytes or bytearray, not NoneType"
                  ++ ". LLM response:" ++ nl ++ "None")),
       [ListTools (list_tools scenario_no_selection);
        ChatCompletion system_prompt_tool_selection user_prompt (inr None)]).
Proof.
  eexists.
  assert (Hin : In (ChatCompletion system_prompt_tool_selection _ (inr None))
                   (trace (process_user_query runtime scenario_no_selection
                                              "find cats")))
    by find_event.
  exact (selection_without_content runtime scenario_no_selection "find cats" _ Hin).
Defined.

(** The tool answers with an embedded resource. *)
Lemma unserializable_result_is_a_tool_error_witness :
  exists user_prompt completion,
    process_user_query runtime scenario_resource "read the file"
    = (inr (Some ("Error executing tool '" ++ "tavily_search"
                  ++ "' on MCP server: "
                  ++ "Object of type TextResourceContents is not JSON serializable")),
       [ListTools (list_tools scenario_resource);
        ChatCompletion system_prompt_tool_selection user_prompt completion;
        CallTool (PyStr "tavily_search") (py_of_json search_arguments)
                 (inr [mcp_resource])]).
Proof.
  assert (Hin : In (CallTool (PyStr "tavily_search") (py_of_json search_arguments)
                             (inr [mcp_resource]))
                   (trace (process_user_query runtime scenario_resource
                                              "read the file")))
    by find_event.
  destruct (unserializable_result_is_a_tool_error runtime scenario_resource
              "read the file" _ _ _
              (mkExc TypeError
                 "Object of type TextResourceContents is not JSON serializable")
              Hin eq_refl) as (u & c & H & _).
  exists u, c. exact H.
Defined.

(** One tool with a set in its schema, next to the search tool. *)
Lemma one_bad_schema_empties_catalog_witness :
  parameter_schema_for_llm runtime opaque_tool
  = inl (mkExc TypeError "Object of type set is not JSON serializable")
  /\ value (list_mcp_tools_with_schema runtime scenario_opaque) = inr []
  /\ process_user_query runtime scenario_opaque "search for recent AI news"
     = (inr (Some "Error: Could not retrieve tools from the MCP server."),
        [ListTools (inr [search_tool; opaque_tool])]).
Proof.
  split; [reflexivity|].
  refine (one_bad_schema_empties_catalog runtime scenario_opaque
            "search for recent AI news" [search_tool; opaque_tool] opaque_tool
            _ eq_refl _ eq_refl).
  right; left; reflexivity.
Defined.

(** The same tool listed twice stays twice in the catalog. *)
Lemma catalog_follows_listing_witness :
  exists catalog,
    value (list_mcp_tools_with_schema runtime scenario_twins) = inr catalog
    /\ List.length catalog = 3%nat
    /\ map (fun entry => py_getitem entry "name") catalog
       = [inr (PyStr "tavily_search"); inr (PyStr "bare");
          inr (PyStr "tavily_search")].
Proof.
  eexists. split; [reflexivity|].
  refine (proj2 (catalog_follows_listing runtime scenario_twins
                   [search_tool; bare_tool; search_tool] _ eq_refl eq_refl _)).
  discriminate.
Defined.

(** A refused connection. *)
Lemma connection_failure_is_reported_witness :
  Chat.chat_interface_fn runtime connection_refused scenario_B "hi" earlier_history
  = (inr (EmptyString,
          (earlier_history
             ++ [Chat.message "user" (PyStr "hi");
                 Chat.message "assistant"
                   (PyStr "Error: Could not connect to the MCP server. Is it running and accessible?")])%list),
     [Chat.Enter (Chat.aenter connection_refused)]).
Proof.
  exact (connection_failure_is_reported runtime connection_refused scenario_B
           "hi" earlier_history _ eq_refl).
Defined.

(** The client is left also when the turn raises. *)
Lemma connection_is_always_closed_witness :
  trace (Chat.chat_interface_fn runtime connection_ok scenario_raw_parameters
                                "anything" earlier_history)
  = [Chat.Enter (inr tt);
     Chat.InTurn (ListTools (list_tools scenario_raw_parameters));
     Chat.Exit (inr tt)]
  /\ List.length
       (filter Chat.is_exit
          (trace (Chat.chat_interface_fn runtime connection_ok scenario_raw_parameters
                                         "anything" earlier_history)))
     = 1%nat.
Proof.
  exact (connection_is_always_closed runtime connection_ok scenario_raw_parameters
           "anything" earlier_history tt eq_refl).
Defined.

(** Scenario B behind the chat handler, the turn that raises, and the turn
    whose narration has no content. *)
Lemma reply_is_the_turn_answer_witness :
  value (Chat.chat_interface_fn runtime connection_ok scenario_B
                                "search for recent AI news" earlier_history)
  = inr (EmptyString,
         (earlier_history
            ++ [Chat.message "user" (PyStr "search for recent AI news");
                Chat.message "assistant"
                  (PyStr "Here is a summary of recent AI news.")])%list)
  /\ value (Chat.chat_interface_fn runtime connection_ok scenario_raw_parameters
                                   "anything" [])
     = inr (EmptyString,
            [Chat.message "user" (PyStr "anything");
             Chat.message "assistant"
               (PyStr "An unexpected error occurred: Object of type bytes is not JSON serializable")])
  /\ value (Chat.chat_interface_fn runtime connection_ok scenario_silent
                                   "search for recent AI news" [])
     = inr (EmptyString,
            [Chat.message "user" (PyStr "search for recent AI news");
             Chat.message "assistant" PyNone]).
Proof.
  split; [|split].
  - exact (reply_is_the_turn_answer runtime connection_ok scenario_B
             "search for recent AI news" earlier_history tt tt eq_refl eq_refl).
  - exact (reply_is_the_turn_answer runtime connection_ok scenario_raw_parameters
             "anything" [] tt tt eq_refl eq_refl).
  - exact (reply_is_the_turn_answer runtime connection_ok scenario_silent
             "search for recent AI news" [] tt tt eq_refl eq_refl).
Defined.

(** Scenario B, but closing the client fails. *)
Lemma failed_exit_replaces_the_answer_witness :
  value (Chat.chat_interface_fn runtime connection_drops scenario_B
                                "search for recent AI news" [])
  = inr (EmptyString,
         [Chat.message "user" (PyStr "search for recent AI news");
          Chat.message "assistant"
            (PyStr "An unexpected error occurred: stream closed")])
  /\ forall ev,
      In ev (trace (process_user_query runtime scenario_B "search for recent AI news")) ->
      In (Chat.InTurn ev)
         (trace (Chat.chat_interface_fn runtime connection_drops scenario_B
                                        "search for recent AI news" [])).
Proof.
  exact (failed_exit_replaces_the_answer runtime connection_drops scenario_B
           "search for recent AI news" [] tt _ eq_refl eq_refl).
Defined.

(** The client on a blank query and on a provider that times out. *)
Lemma search_raises_TavilySearchError_only_witness :
  Server.search provider_ok "tvly-test" "   " 5 (PyStr "basic")
  = (inl (mkExc TavilySearchError "Search query cannot be empty"),
     [Server.Search "   " 5 (PyStr "basic")])
  /\ exc_class (mkExc TavilySearchError ("Network error: " ++ "timed out"))
     = TavilySearchError
  /\ List.length
       (filter is_post
          (trace (Server.search provider_timeout "tvly-test" "cats" 5 (PyStr "basic"))))
     = 1%nat.
Proof.
  split; [|split].
  - exact (proj1 (proj2 (search_raises_TavilySearchError_only provider_ok
                           "tvly-test" "   " 5 (PyStr "basic"))) eq_refl).
  - exact (proj1 (search_raises_TavilySearchError_only provider_timeout
                    "tvly-test" "cats" 5 (PyStr "basic")) _ eq_refl).
  - refine (proj2 (proj2 (search_raises_TavilySearchError_only provider_timeout
                            "tvly-test" "cats" 5 (PyStr "basic"))) _).
    discriminate.
Defined.

Lemma at_most_one_request_witness :
  trace (Server.tavily_search runtime provider_ok (PyStr "cats") PyNone (PyStr "basic"))
  = []
  /\ trace (Server.tavily_search runtime provider_no_key (PyStr "cats") (PyInt 5)
                                 (PyStr "basic"))
     = [].
Proof.
  split.
  - refine (proj2 (at_most_one_request runtime provider_ok (PyStr "cats") PyNone
                     (PyStr "basic")) _).
    right; right; left. eexists. reflexivity.
  - refine (proj2 (at_most_one_request runtime provider_no_key (PyStr "cats")
                     (PyInt 5) (PyStr "basic")) _).
    right; right; right. eexists. reflexivity.
Defined.

(** A query with spaces around it. *)
Lemma provider_request_witness :
  exists payload q key,
    In (Server.Post "https://api.tavily.com/search" payload
                    (Server.Returned provider_reply))
       (trace (Server.tavily_search runtime provider_ok (PyStr "  cats ") (PyInt 5)
                                    (PyStr "basic")))
    /\ PyStr "  cats " = PyStr q
    /\ Server.TAVILY_API_KEY provider_ok = Some key /\ key <> EmptyString
    /\ "https://api.tavily.com/search" = "https://api.tavily.com/search"
    /\ Server.Returned provider_reply
       = Server.post provider_ok "https://api.tavily.com/search" payload
    /\ py_getitem payload "api_key" = inr (PyStr key)
    /\ py_getitem payload "query" = inr (PyStr (strip q))
    /\ strip q <> EmptyString /\ trimmed (strip q)
    /\ py_getitem payload "include_answer" = inr (PyBool true)
    /\ py_getitem payload "include_images" = inr (PyBool false)
    /\ py_getitem payload "include_raw_content" = inr (PyBool false).
Proof.
  eexists.
  assert (Hin : In (Server.Post "https://api.tavily.com/search" _
                                (Server.Returned provider_reply))
                   (trace (Server.tavily_search runtime provider_ok (PyStr "  cats ")
                                                (PyInt 5) (PyStr "basic"))))
    by find_event.
  destruct (provider_request runtime provider_ok _ _ _ _ _ _ Hin) as (q & key & H).
  exists q, key. split; [exact Hin|exact H].
Defined.

(** Two hits, the second with a URL only. *)
Lemma results_are_formatted_in_order_witness :
  Server.format_results (PyStr "cats") (py_of_json two_hits)
  = inr [PyDict [("type", PyStr "result"); ("title", PyStr "A");
                 ("url", PyStr "https://a.example"); ("content", PyStr "first");
                 ("score", PyInt 1)];
         PyDict [("type", PyStr "result"); ("title", PyStr EmptyString);
                 ("url", PyStr "https://b.example"); ("content", PyStr EmptyString);
                 ("score", PyFloat 0%float)]].
Proof.
  exact (results_are_formatted_in_order (PyStr "cats")
           [("results",
             PyList [PyDict [("title", PyStr "A"); ("url", PyStr "https://a.example");
                             ("content", PyStr "first"); ("score", PyInt 1);
                             ("raw_content", PyStr "dropped")];
                     PyDict [("url", PyStr "https://b.example")]])]
           [[("title", PyStr "A"); ("url", PyStr "https://a.example");
             ("content", PyStr "first"); ("score", PyInt 1);
             ("raw_content", PyStr "dropped")];
            [("url", PyStr "https://b.example")]]
           eq_refl).
Defined.

(** The provider answers with an array. *)
Lemma malformed_reply_is_reported_witness :
  value (Server.tavily_search runtime (provider_with (JArr [])) (PyStr "cats")
                              (PyInt 5) (PyStr "basic"))
  = inr (PyList [PyDict [("error",
           PyStr ("Unexpected error: "
                  ++ ("'" ++ "list" ++ "' object has no attribute 'get'")))]]).
Proof.
  refine (malformed_reply_is_reported runtime (provider_with (JArr [])) (PyStr "cats")
            (PyInt 5) (PyStr "basic") _ _ (JArr []) _ eq_refl).
  find_event.
Defined.

(** A limit given as a word, and no limit at all. *)
Lemma unconvertible_limit_is_reported_witness :
  Server.tavily_search runtime_more provider_ok (PyStr "cats") (PyStr "many")
                       (PyStr "basic")
  = (inr (PyList [PyDict [("error",
            PyStr ("Configuration error: "
                   ++ "invalid literal for int() with base 10"))]]), [])
  /\ Server.tavily_search runtime provider_ok (PyStr "cats") PyNone (PyStr "basic")
     = (inr (PyList [PyDict [("error",
               PyStr ("Unexpected error: "
                      ++ "int() argument must be a string, a bytes-like object or a real number, not 'NoneType'"))]]),
        []).
Proof.
  split.
  - refine (proj1 (unconvertible_limit_is_reported runtime_more provider_ok "cats"
                     (PyStr "many") (PyStr "basic") _ _ eq_refl) eq_refl).
    discriminate.
  - refine (proj2 (unconvertible_limit_is_reported runtime provider_ok "cats"
                     PyNone (PyStr "basic") _ _ eq_refl) eq_refl).
    discriminate.
Defined.

(** Starting with and without a key. *)
Lemma main_runs_iff_configured_witness :
  trace (Launch.main provider_no_key Launch.Returned)
  = [Launch.LogError "TAVILY_API_KEY environment variable is required"]
  /\ existsb Launch.is_run
       (trace (Launch.main provider_ok (Launch.Raised boom))) = true
  /\ In (Launch.LogError ("Server error: " ++ exc_msg boom))
        (trace (Launch.main provider_ok (Launch.Raised boom))).
Proof.
  split; [|split].
  - refine (proj1 (proj2 (proj2 (main_runs_iff_configured provider_no_key
                                   Launch.Returned))) _).
    eexists. reflexivity.
  - refine (proj2 (proj1 (main_runs_iff_configured provider_ok (Launch.Raised boom)))
                  _).
    eexists. reflexivity.
  - refine (proj2 (proj2 (proj2 (main_runs_iff_configured provider_ok
                                   (Launch.Raised boom)))) _).
    find_event.
Defined.

Lemma served_tool_finds_its_key_witness :
  exists key url payload,
    Server.TAVILY_API_KEY provider_ok = Some key
    /\ trace (Server.tavily_search runtime provider_ok (PyStr "cats") (PyInt 50)
                                   (PyStr "deep"))
       = [Server.Search "cats" (Server.clamp_max_results 50)
                        (Server.checked_search_depth (PyStr "deep"));
          Server.Post url payload (Server.post provider_ok url payload)]
    /\ py_getitem payload "api_key" = inr (PyStr key).
Proof.
  refine (served_tool_finds_its_key runtime provider_ok Launch.KeyboardInterrupt
            "cats" (PyInt 50) (PyStr "deep") 50%Z eq_refl _ eq_refl).
  discriminate.
Defined.

End MoreScenarios.
